(** * tiled/adapters/hdf5.py: the HDF5 tree adapter

    A shallow embedding of [ArrayWithAttrs], [HDF5DatasetAdapter] and
    [HDF5Adapter].  Python exceptions are an error type, the interpreter
    state the code touches (instance dictionaries, the warnings it emits)
    is threaded through a small state-and-exception monad, and the
    container library (h5py), numpy and dask appear as the observations
    the adapter makes of them. *)

From Stdlib Require Import ZArith List String Ascii Bool Lia.
Import ListNotations.

Local Open Scope string_scope.
Local Open Scope list_scope.

(** ** Exceptions and results *)

Inductive PyErr : Type :=
| KeyError
| ValueError
| RuntimeError
| NotImplementedError
| AttributeError
| TypeError
| IndexError
| UnicodeDecodeError.

Inductive Res (A : Type) : Type :=
| Ok (a : A)
| Raise (e : PyErr).

Arguments Ok {A} a.
Arguments Raise {A} e.

Definition res_bind {A B} (r : Res A) (f : A -> Res B) : Res B :=
  match r with
  | Ok a => f a
  | Raise e => Raise e
  end.

Fixpoint res_mapM {A B} (f : A -> Res B) (l : list A) : Res (list B) :=
  match l with
  | [] => Ok []
  | x :: r => res_bind (f x) (fun y => res_bind (res_mapM f r) (fun ys => Ok (y :: ys)))
  end.

(** ** Python values the adapter handles *)

Definition loc := nat.

(** A scalar as numpy and h5py hand it over: an integer, text ([str],
    kept as its UTF-8 bytes), a byte string ([bytes], [numpy.bytes_]),
    [None], or any other object (an HDF5 reference, a ragged row), of
    which only the printed form is kept. *)
Inductive scalar : Type :=
| Int (z : Z)
| Str (s : string)
| Bytes (b : string)
| NoneObj
| Opaque (repr : string).

(** The attribute store of a container node, in its native order. *)
Definition Attrs := list (string * scalar).

(** What an instance attribute can hold: a scalar, a reference to a dict
    object of the heap, or a container node's attribute store. *)
Inductive PyVal : Type :=
| VScalar (x : scalar)
| VDict (l : loc)
| VAttrs (a : Attrs).

Definition PyDict := list (string * PyVal).

Fixpoint dict_get {V} (k : string) (d : list (string * V)) : option V :=
  match d with
  | [] => None
  | (k', v) :: r => if String.eqb k k' then Some v else dict_get k r
  end.

(** [d[k] = v]: an existing key keeps its position, a new one goes last. *)
Fixpoint dict_set {V} (k : string) (v : V) (d : list (string * V)) : list (string * V) :=
  match d with
  | [] => [(k, v)]
  | (k', v') :: r => if String.eqb k k' then (k', v) :: r else (k', v') :: dict_set k v r
  end.

(** [d.update(other)] *)
Definition dict_update {V} (d other : list (string * V)) : list (string * V) :=
  fold_left (fun acc kv => dict_set (fst kv) (snd kv) acc) other d.

Fixpoint update_nth {A} (n : nat) (f : A -> A) (l : list A) : list A :=
  match l, n with
  | [], _ => []
  | x :: r, O => f x :: r
  | x :: r, S n' => x :: update_nth n' f r
  end.

(** ** The interpreter state and its monad *)

(** The dict objects allocated so far (a reference is an index) and the
    warnings emitted through [warnings.warn]. *)
Record World : Type := mkWorld {
  heap : list PyDict;
  warnings : list string
}.

Definition Py (A : Type) : Type := World -> Res A * World.

Definition ret {A} (a : A) : Py A := fun w => (Ok a, w).

Definition raise {A} (e : PyErr) : Py A := fun w => (Raise e, w).

Definition bind {A B} (m : Py A) (f : A -> Py B) : Py B :=
  fun w =>
    match m w with
    | (Ok a, w') => f a w'
    | (Raise e, w') => (Raise e, w')
    end.

Definition lift {A} (r : Res A) : Py A := fun w => (r, w).

Declare Scope py_scope.
Delimit Scope py_scope with py.
Notation "x <- m ;; k" := (bind m (fun x => k))
  (at level 61, m at next level, right associativity) : py_scope.
Notation "m ;; k" := (bind m (fun _ => k))
  (at level 61, right associativity) : py_scope.
Local Open Scope py_scope.

Fixpoint mapM {A B} (f : A -> Py B) (l : list A) : Py (list B) :=
  match l with
  | [] => ret []
  | x :: r => y <- f x ;; ys <- mapM f r ;; ret (y :: ys)
  end.

(** [warnings.warn(msg)] *)
Definition warn (msg : string) : Py unit :=
  fun w => (Ok tt, mkWorld (heap w) (warnings w ++ [msg])).

(** A new dict object. *)
Definition alloc (d : PyDict) : Py loc :=
  fun w => (Ok (List.length (heap w)), mkWorld (heap w ++ [d]) (warnings w)).

(** [obj.update(other)] on the dict object at [l]. *)
Definition heap_update (l : loc) (other : PyDict) : Py unit :=
  fun w => (Ok tt, mkWorld (update_nth l (fun d => dict_update d other) (heap w)) (warnings w)).

Definition heap_get (w : World) (l : loc) : option PyDict := nth_error (heap w) l.

(** ** numpy *)

Module numpy.

(** An n-dimensional buffer: whether its dtype is the object dtype, its
    shape and its elements in C order. *)
Record ndarray : Type := make {
  hasobject : bool;
  shape : list nat;
  data : list scalar
}.

(** An array of a numeric or string dtype. *)
Definition mk_ndarray (dims : list nat) (elements : list scalar) : ndarray :=
  make false dims elements.

(** An array of the object dtype. *)
Definition object_array (dims : list nat) (elements : list scalar) : ndarray :=
  make true dims elements.

Definition size (a : ndarray) : nat := fold_right Nat.mul 1 (shape a).

Definition ndim (a : ndarray) : nat := List.length (shape a).

(** Whether numpy can only hold a value as a Python object: numbers,
    text and bytes get a dtype of their own, [None] and other objects
    get the object dtype. *)
Definition python_object (x : scalar) : bool :=
  match x with
  | NoneObj | Opaque _ => true
  | _ => false
  end.

(** What [numpy.asarray] is given here: an array, a scalar (a full
    reduction, a 0-d read), a Python list, or [None] ([ufunc.at]). *)
Inductive object : Type :=
| Array (a : ndarray)
| Scalar (x : scalar)
| PyList (l : list scalar)
| PyNone.

Definition asarray (o : object) : ndarray :=
  match o with
  | Array a => a
  | Scalar x => make (python_object x) [] [x]
  | PyList l => make (existsb python_object l) [List.length l] l
  | PyNone => make true [] [NoneObj]
  end.

(** [numpy.array]: as [asarray], on a copy. *)
Definition array (o : object) : ndarray := asarray o.

Definition Kwargs := list (string * scalar).

(** A ufunc: its call and its five methods, as functions of the bare
    operands. *)
Record ufunc : Type := mk_ufunc {
  call : list ndarray -> Kwargs -> Res object;
  reduce : list ndarray -> Kwargs -> Res object;
  accumulate : list ndarray -> Kwargs -> Res object;
  reduceat : list ndarray -> Kwargs -> Res object;
  outer : list ndarray -> Kwargs -> Res object;
  at_ : list ndarray -> Kwargs -> Res object
}.

(** The [method] string numpy passes to [__array_ufunc__]. *)
Inductive method : Type :=
| m_reduce | m_accumulate | m_reduceat | m_outer | m_at | m_call.

End numpy.

(** ** h5py *)

Module h5py.

(** [h5py.string_info]: [length] is [None] for a variable-length string. *)
Record string_info : Type := mk_string_info {
  encoding : string;
  length : option nat
}.

(** What the [vlen] metadata of an object dtype names: [str], [bytes],
    or the dtype of the rows of a ragged array, a fixed-length string
    dtype or another one. *)
Inductive vlen_base : Type :=
| vlen_str
| vlen_bytes
| vlen_fixed_string (itemsize : nat)
| vlen_other.

(** A dataset's dtype: a fixed-width numeric type, a fixed-length string
    (numpy kind [S], with its item size and encoding), or the object
    dtype, with the variable-length base that h5py keeps in its
    metadata, if any (an object reference has none). *)
Inductive dtype : Type :=
| fixed_width
| fixed_string (itemsize : nat) (charset : string)
| object_dtype (vlen : option vlen_base).

(** [dt == numpy.dtype("O")] *)
Definition is_object (dt : dtype) : bool :=
  match dt with
  | object_dtype _ => true
  | _ => false
  end.

(** [h5py.check_string_dtype(dt)]: the encoding and length of an HDF5
    string, [None] for a dtype that is not one; ragged rows are not
    strings, whatever their elements are. *)
Definition check_string_dtype (dt : dtype) : option string_info :=
  match dt with
  | object_dtype (Some vlen_str) => Some (mk_string_info "utf-8" None)
  | object_dtype (Some vlen_bytes) => Some (mk_string_info "ascii" None)
  | fixed_string itemsize charset => Some (mk_string_info charset (Some itemsize))
  | _ => None
  end.

Record Dataset : Type := mk_Dataset {
  ds_dtype : dtype;
  ds_value : numpy.ndarray;
  ds_attrs : Attrs
}.

(** [value.size] *)
Definition ds_size (d : Dataset) : nat := numpy.size (ds_value d).

(** A group: its path name, its attribute store, and its members in
    the container's enumeration order. *)
Inductive Group : Type :=
| mk_Group (name : string) (attrs : Attrs) (members : list (string * H5Object))
with H5Object : Type :=
| ObjGroup (g : Group)
| ObjDataset (d : Dataset).

Definition name (g : Group) : string := let 'mk_Group n _ _ := g in n.
Definition attrs (g : Group) : Attrs := let 'mk_Group _ a _ := g in a.
Definition members (g : Group) : list (string * H5Object) := let 'mk_Group _ _ m := g in m.

(** [list(group)] *)
Definition keys (g : Group) : list string := map fst (members g).

(** The pieces of a key between its separators. *)
Fixpoint split_path (key : string) : list string :=
  match key with
  | EmptyString => [EmptyString]
  | String c rest =>
      if Ascii.eqb c "/"%char then EmptyString :: split_path rest
      else
        match split_path rest with
        | [] => [String c EmptyString]
        | first :: others => String c first :: others
        end
  end.

(** The names a key goes through: an empty piece (a repeated or trailing
    separator) and [.] (the group itself) name nothing. *)
Definition components (key : string) : list string :=
  filter (fun c => negb (String.eqb c "" || String.eqb c ".")) (split_path key).

(** A key that starts with the separator is followed from the root of
    the file. *)
Definition absolute (key : string) : bool :=
  match key with
  | String c _ => Ascii.eqb c "/"%char
  | EmptyString => false
  end.

(** A link name: not empty, not [.], and without separator. *)
Definition link_name (key : string) : bool :=
  negb (String.eqb key "") && negb (String.eqb key ".")
  && forallb (fun c => negb (Ascii.eqb c "/"%char)) (list_ascii_of_string key).

Fixpoint follow (path : list string) (obj : H5Object) : option H5Object :=
  match path with
  | [] => Some obj
  | c :: rest =>
      match obj with
      | ObjGroup g =>
          match dict_get c (members g) with
          | Some child => follow rest child
          | None => None
          end
      | ObjDataset _ => None
      end
  end.

Fixpoint strip_prefix (prefix path : list string) : option (list string) :=
  match prefix, path with
  | [], _ => Some path
  | p :: ps, c :: cs => if String.eqb p c then strip_prefix ps cs else None
  | _ :: _, [] => None
  end.

(** [group[key]]: the key is a name or a path of names, followed link by
    link from the group, or from the root of the file when absolute;
    [KeyError] when it leads to nothing, [ValueError] for the empty key.
    A group value holds its own subtree: an absolute key is answered
    when it leads into that subtree, and counts as missing when it leads
    elsewhere in the file. *)
Definition getitem (g : Group) (key : string) : Res H5Object :=
  if String.eqb key "" then Raise ValueError
  else
    match (if absolute key
           then strip_prefix (components (name g)) (components key)
           else Some (components key)) with
    | Some path =>
        match follow path (ObjGroup g) with
        | Some v => Ok v
        | None => Raise KeyError
        end
    | None => Raise KeyError
    end.

(** [value.file[group.name + "/" + key]]: the file follows the group's
    own path and then the names of the key.  The separator that the key
    may start with is now in the middle of the path, where it names
    nothing: the key is followed from the group, also when [group[key]]
    followed it from the root of the file. *)
Definition file_getitem (g : Group) (key : string) : Res H5Object :=
  match follow (components key) (ObjGroup g) with
  | Some v => Ok v
  | None => Raise KeyError
  end.

(** [dataset[...][()]]: [[...]] reads the whole payload into an array of
    the dataset's dtype and shape, and [[()]] takes the element out of a
    0-d array. *)
Definition read (d : Dataset) : numpy.object :=
  match numpy.shape (ds_value d), numpy.data (ds_value d) with
  | [], [x] => numpy.Scalar x
  | dims, elements => numpy.Array (numpy.make (is_object (ds_dtype d)) dims elements)
  end.

(** [obj[...][()]]: a group is subscripted by names only, and raises
    [TypeError] for [...]. *)
Definition read_object (obj : H5Object) : Res numpy.object :=
  match obj with
  | ObjDataset d => Ok (read d)
  | ObjGroup _ => Raise TypeError
  end.

End h5py.

(** ** Python sequences: lists, and what [reversed] makes of one *)

Section Sequences.

Context {A : Type}.

(** A list, or the [list_reverseiterator] that [reversed(l)] returns:
    an iterator over [l], which has no [__getitem__]. *)
Inductive sequence : Type :=
| a_list (l : list A)
| list_reverseiterator (l : list A).

Definition reversed (l : list A) : sequence := list_reverseiterator l.

(** A slice bound of [l[start:stop]] on a list of [n] items: a negative
    bound counts from the end, and every bound is clipped to [0, n]. *)
Definition slice_bound (n : Z) (i : option Z) (default : Z) : Z :=
  match i with
  | None => default
  | Some i => if (i <? 0)%Z then Z.max 0 (i + n) else Z.min i n
  end.

Definition list_slice (l : list A) (start stop : option Z) : list A :=
  let n := Z.of_nat (List.length l) in
  let lo := slice_bound n start 0 in
  let hi := slice_bound n stop n in
  firstn (Z.to_nat (hi - lo)) (skipn (Z.to_nat lo) l).

Definition list_index (l : list A) (i : Z) : Res A :=
  let n := Z.of_nat (List.length l) in
  let j := if (i <? 0)%Z then (i + n)%Z else i in
  if ((0 <=? j) && (j <? n))%Z then
    match nth_error l (Z.to_nat j) with
    | Some x => Ok x
    | None => Raise IndexError
    end
  else Raise IndexError.

(** [s[start:stop]] *)
Definition getslice (s : sequence) (start stop : option Z) : Res (list A) :=
  match s with
  | a_list l => Ok (list_slice l start stop)
  | list_reverseiterator _ => Raise TypeError
  end.

(** [s[index]] *)
Definition getindex (s : sequence) (index : Z) : Res A :=
  match s with
  | a_list l => list_index l index
  | list_reverseiterator _ => Raise TypeError
  end.

End Sequences.

Arguments sequence A : clear implicits.

(** ** [bytes.decode()] *)

Definition continuation (b : N) : bool := ((128 <=? b) && (b <=? 191))%N.

(** Well-formed UTF-8 (no overlong forms, no surrogates, at most U+10FFFF),
    which is what the strict default codec accepts. *)
Fixpoint utf8_valid (bs : list N) : bool :=
  match bs with
  | [] => true
  | b0 :: r0 =>
      if (b0 <=? 127)%N then utf8_valid r0
      else if ((194 <=? b0) && (b0 <=? 223))%N then
        match r0 with
        | b1 :: r1 => continuation b1 && utf8_valid r1
        | _ => false
        end
      else if ((224 <=? b0) && (b0 <=? 239))%N then
        match r0 with
        | b1 :: b2 :: r2 =>
            continuation b1
            && (if (b0 =? 224)%N then (160 <=? b1)%N else true)
            && (if (b0 =? 237)%N then (b1 <=? 159)%N else true)
            && continuation b2 && utf8_valid r2
        | _ => false
        end
      else if ((240 <=? b0) && (b0 <=? 244))%N then
        match r0 with
        | b1 :: b2 :: b3 :: r3 =>
            continuation b1
            && (if (b0 =? 240)%N then (144 <=? b1)%N else true)
            && (if (b0 =? 244)%N then (b1 <=? 143)%N else true)
            && continuation b2 && continuation b3 && utf8_valid r3
        | _ => false
        end
      else false
  end.

Definition decode (b : string) : Res string :=
  if utf8_valid (map N_of_ascii (list_ascii_of_string b)) then Ok b
  else Raise UnicodeDecodeError.

(** ** class ArrayWithAttrs(numpy.ndarray) *)

Module ArrayWithAttrs.

(** An instance: the buffer it views and its instance dictionary. *)
Record t : Type := mk {
  base : numpy.ndarray;
  __dict__ : loc
}.

(** [obj.name] for a name kept in the instance dictionary. *)
Definition getattr (self : t) (name : string) : Py PyVal :=
  fun w =>
    match heap_get w (__dict__ self) with
    | Some d =>
        match dict_get name d with
        | Some v => (Ok v, w)
        | None => (Raise AttributeError, w)
        end
    | None => (Raise AttributeError, w)
    end.

Definition __array_finalize__ (self : t) (obj : option numpy.ndarray) : Py unit :=
  match obj with
  | None => ret tt
  | Some _ =>
      attrs <- alloc [] ;;
      let default_attributes := [("attrs", VDict attrs)] in
      heap_update (__dict__ self) default_attributes
  end.

(** [numpy.asarray(input_array).view(cls)]: the view is a new instance
    with an empty dictionary, finalized from the array it views. *)
Definition __new__ (input_array : numpy.object) : Py t :=
  let arr := numpy.asarray input_array in
  d <- alloc [] ;;
  let self := mk arr d in
  __array_finalize__ self (Some arr) ;;
  ret self.

(** An operand of a ufunc call: an [ArrayWithAttrs], a plain array, or
    a Python number or list, which has no [view]. *)
Inductive operand : Type :=
| an_ArrayWithAttrs (a : t)
| an_ndarray (a : numpy.ndarray)
| a_python_value (x : numpy.object).

(** [i.view(numpy.ndarray)] *)
Definition view_ndarray (i : operand) : Res numpy.ndarray :=
  match i with
  | an_ArrayWithAttrs a => Ok (base a)
  | an_ndarray a => Ok a
  | a_python_value _ => Raise AttributeError
  end.

(** The table [f] and its lookup [f[method]]. *)
Definition f (ufunc : numpy.ufunc) (method : numpy.method)
  : list numpy.ndarray -> numpy.Kwargs -> Res numpy.object :=
  match method with
  | numpy.m_reduce => numpy.reduce ufunc
  | numpy.m_accumulate => numpy.accumulate ufunc
  | numpy.m_reduceat => numpy.reduceat ufunc
  | numpy.m_outer => numpy.outer ufunc
  | numpy.m_at => numpy.at_ ufunc
  | numpy.m_call => numpy.call ufunc
  end.

Definition __array_ufunc__ (self : t) (ufunc : numpy.ufunc) (method : numpy.method)
    (inputs : list operand) (kwargs : numpy.Kwargs) : Py t :=
  args <- lift (res_mapM view_ndarray inputs) ;;
  result <- lift (f ufunc method args kwargs) ;;
  output <- __new__ result ;;
  (* output.__dict__ = self.__dict__ *)
  ret (mk (base output) (__dict__ self)).

(** [a.attrs], read through: the metadata map itself. *)
Definition attrs_of (w : World) (a : t) : option PyDict :=
  match heap_get w (__dict__ a) with
  | Some d =>
      match dict_get "attrs" d with
      | Some (VDict l) => heap_get w l
      | _ => None
      end
  | None => None
  end.

End ArrayWithAttrs.

(** ** dask.array *)

Module dask.

(** What [from_array] is given: a dataset of the container or an
    in-memory array. *)
Inductive source : Type :=
| of_dataset (d : h5py.Dataset)
| of_array (a : ArrayWithAttrs.t).

(** A lazily evaluated, chunked view of its source's full extent. *)
Inductive array : Type :=
| from_array (x : source).

Definition size (a : array) : nat :=
  match a with
  | from_array (of_dataset d) => h5py.ds_size d
  | from_array (of_array a) => numpy.size (ArrayWithAttrs.base a)
  end.

(** [x.dtype.hasobject] *)
Definition hasobject (x : source) : bool :=
  match x with
  | of_dataset d => h5py.is_object (h5py.ds_dtype d)
  | of_array a => numpy.hasobject (ArrayWithAttrs.base a)
  end.

(** [x.ndim] *)
Definition ndim (x : source) : nat :=
  match x with
  | of_dataset d => numpy.ndim (h5py.ds_value d)
  | of_array a => numpy.ndim (ArrayWithAttrs.base a)
  end.

(** [dask.array.from_array(x)], with its default [chunks="auto"]:
    automatic chunking cannot size the elements of an object dtype and
    raises [NotImplementedError] for it, unless the array has no
    dimension to chunk. *)
Definition array_from_array (x : source) : Res array :=
  if hasobject x && negb (Nat.eqb (ndim x) 0) then Raise NotImplementedError
  else Ok (from_array x).

End dask.

(** ** class ArrayAdapter *)

Module ArrayAdapter.

(** Modelled from the spec: [ArrayAdapter], the base class of
    [HDF5DatasetAdapter] (tiled/adapters/array.py), whose constructor
    takes the array and the metadata map and keeps both: a leaf adapter
    holds a lazily-evaluated chunked array value and the metadata map
    of the store it was constructed with.  The field [metadata] is the
    constructor's argument as kept; what the adapter surfaces is
    [surfaced_metadata] below. *)
Record t : Type := __init__ {
  array : dask.array;
  metadata : PyVal
}.

(** An attribute store as a map of Python values. *)
Definition as_dict (a : Attrs) : PyDict :=
  map (fun kv => (fst kv, VScalar (snd kv))) a.

(** The entries of a metadata map. *)
Definition items (w : World) (m : PyVal) : option PyDict :=
  match m with
  | VAttrs a => Some (as_dict a)
  | VDict l => heap_get w l
  | VScalar _ => None
  end.



End ArrayAdapter.

(** ** class HDF5DatasetAdapter(ArrayAdapter) *)

Module HDF5DatasetAdapter.

(** [dataset.attrs] *)
Definition attrs (dataset : dask.source) : Py PyVal :=
  match dataset with
  | dask.of_dataset d => ret (VAttrs (h5py.ds_attrs d))
  | dask.of_array a => ArrayWithAttrs.getattr a "attrs"
  end.

Definition __init__ (dataset : dask.source) : Py ArrayAdapter.t :=
  data <- lift (dask.array_from_array dataset) ;;
  metadata <- attrs dataset ;;
  ret (ArrayAdapter.__init__ data metadata).

End HDF5DatasetAdapter.


(** ** class HDF5Adapter(collections.abc.Mapping, IndexersMixin) *)

(** The class of the tree being constructed: all that a policy can see of
    an instance whose constructor has not yet set a field. *)
Inductive tree_class : Type :=
| HDF5Adapter_class
| other_tree_class.

(** An access policy: the capability [check_compatibility(tree)]. *)
Record AccessPolicy : Type := mk_AccessPolicy {
  check_compatibility : tree_class -> bool
}.

(** An authenticated identity: an opaque token. *)
Definition Identity := string.

Module HDF5Adapter.

Record t : Type := mk {
  _node : h5py.Group;
  _access_policy : option AccessPolicy;
  _authenticated_identity : option Identity
}.

Definition __init__ (node : h5py.Group) (access_policy : option AccessPolicy)
    (authenticated_identity : option Identity) : Res t :=
  if match access_policy with
     | Some p => negb (check_compatibility p HDF5Adapter_class)
     | None => false
     end
  then Raise ValueError
  else Ok (mk node access_policy authenticated_identity).

Definition access_policy (self : t) : option AccessPolicy := _access_policy self.

Definition authenticated_identity (self : t) : option Identity := _authenticated_identity self.

Definition authenticated_as (self : t) (identity : option Identity) : Res t :=
  match _authenticated_identity self with
  | Some _ => Raise RuntimeError
  | None =>
      match _access_policy self with
      | Some _ => Raise NotImplementedError
      | None => __init__ (_node self) (_access_policy self) identity
      end
  end.

(** The loop of [metadata] on one item: [bytes] become [str]. *)
Definition decode_item (kv : string * scalar) : Res (string * scalar) :=
  match snd kv with
  | Bytes b => res_bind (decode b) (fun s => Ok (fst kv, Str s))
  | _ => Ok kv
  end.

Definition decode_attrs (d : Attrs) : Res Attrs := res_mapM decode_item d.

Definition metadata (self : t) : Res Attrs :=
  let d := h5py.attrs (_node self) in
  decode_attrs d.

Definition __iter__ (self : t) : list string := h5py.keys (_node self).

(** What a lookup resolves to: a nested tree or an array leaf. *)
Inductive child : Type :=
| a_tree (tree : t)
| a_leaf (adapter : ArrayAdapter.t).

Definition object_type_warning (key : string) : string :=
  "The dataset " ++ key ++ " is of object type, using a "
  ++ "Python-only feature of h5py that is not supported by "
  ++ "HDF5 in general. Read more about that feature at "
  ++ "https://docs.h5py.org/en/stable/special.html. "
  ++ "Consider using a fixed-length field instead. "
  ++ "Tiled will serve an empty placeholder, unless the "
  ++ "object is of size 1, where it will attempt to repackage "
  ++ "the data into a numpy array.".

(** [HDF5DatasetAdapter(ArrayWithAttrs(numpy.array(x)))] *)
Definition repackaged (x : numpy.object) : Py child :=
  arr <- ArrayWithAttrs.__new__ (numpy.Array (numpy.array x)) ;;
  adapter <- HDF5DatasetAdapter.__init__ (dask.of_array arr) ;;
  ret (a_leaf adapter).

Definition __getitem__ (self : t) (key : string) : Py child :=
  value <- lift (h5py.getitem (_node self) key) ;;
  match value with
  | h5py.ObjGroup value =>
      tree <- lift (__init__ value None None) ;;
      ret (a_tree tree)
  | h5py.ObjDataset value =>
      if h5py.is_object (h5py.ds_dtype value) then
        warn (object_type_warning key) ;;
        match h5py.check_string_dtype (h5py.ds_dtype value) with
        | None => raise AttributeError (* None has no attribute length *)
        | Some check_str_dtype =>
            match h5py.length check_str_dtype with
            | None =>
                dataset_names <-
                  lift (res_bind (h5py.file_getitem (_node self) key) h5py.read_object) ;;
                if Nat.eqb (h5py.ds_size value) 1 then repackaged dataset_names
                else repackaged (numpy.PyList [])
            | Some _ => repackaged (numpy.PyList [])
            end
        end
      else
        adapter <- HDF5DatasetAdapter.__init__ (dask.of_dataset value) ;;
        ret (a_leaf adapter)
  end.

Definition __len__ (self : t) : nat := List.length (h5py.members (_node self)).

(** [collections.abc.Mapping.__contains__]: try [self[key]], and answer
    [False] on [KeyError] only. *)
Definition __contains__ (self : t) (key : string) : Py bool :=
  fun w =>
    match __getitem__ self key w with
    | (Ok _, w') => (Ok true, w')
    | (Raise KeyError, w') => (Ok false, w')
    | (Raise e, w') => (Raise e, w')
    end.

Definition search (self : t) (query : string) : Res t := Raise NotImplementedError.

Definition read (self : t) (fields : option (list string)) : Res t :=
  match fields with
  | Some _ => Raise NotImplementedError
  | None => Ok self
  end.

Definition _keys_slice (self : t) (start stop : option Z) (direction : Z)
  : Res (list string) :=
  let keys := h5py.keys (_node self) in
  let keys := if (direction <? 0)%Z then reversed keys else a_list keys in
  getslice keys start stop.

Definition _items_slice (self : t) (start stop : option Z) (direction : Z)
  : Py (list (string * child)) :=
  items <- mapM (fun key => v <- __getitem__ self key ;; ret (key, v)) (__iter__ self) ;;
  let items := if (direction <? 0)%Z then reversed items else a_list items in
  lift (getslice items start stop).

Definition _item_by_index (self : t) (index : Z) (direction : Z) : Res string :=
  let keys := __iter__ self in
  let keys := if (direction <? 0)%Z then reversed keys else a_list keys in
  getindex keys index.

End HDF5Adapter.


(** ** A sample container and a sample ufunc *)

Module Sample.

Definition int64 : h5py.dtype := h5py.fixed_width.

(** [h5py.string_dtype()]: variable-length UTF-8 text. *)
Definition vlen_str : h5py.dtype := h5py.object_dtype (Some h5py.vlen_str).

(** [h5py.ref_dtype]: an object dtype that is not a string. *)
Definition ref_dtype : h5py.dtype := h5py.object_dtype None.

(** [numpy.dtype("S8")]: a fixed-length string. *)
Definition S8 : h5py.dtype := h5py.fixed_string 8 "ascii".

Definition data : h5py.Dataset :=
  h5py.mk_Dataset int64 (numpy.mk_ndarray [3] [Int 1; Int 2; Int 3]) [("unit", Str "eV")].

Definition counts : h5py.Dataset :=
  h5py.mk_Dataset int64 (numpy.mk_ndarray [2; 2] [Int 4; Int 0; Int 7; Int 9])
    [("unit", Bytes "eV"); ("scale", Int 10)].

Definition names : h5py.Dataset :=
  h5py.mk_Dataset vlen_str (numpy.object_array [2] [Str "I0"; Str "It"])
    [("axis", Str "columns")].

Definition title : h5py.Dataset :=
  h5py.mk_Dataset vlen_str (numpy.object_array [1] [Str "Fe foil"]) [("lang", Str "en")].

Definition links : h5py.Dataset :=
  h5py.mk_Dataset ref_dtype
    (numpy.object_array [2]
       [Opaque "<HDF5 object reference>"; Opaque "<HDF5 object reference>"]) [].

Definition origin : h5py.Dataset :=
  h5py.mk_Dataset ref_dtype (numpy.object_array [1] [Opaque "<HDF5 object reference>"]) [].

Definition labels : h5py.Dataset :=
  h5py.mk_Dataset S8 (numpy.mk_ndarray [3] [Bytes "a"; Bytes "b"; Bytes "c"])
    [("unit", Str "eV")].

(** A scalar dataset (shape [()]) of variable-length text. *)
Definition author : h5py.Dataset :=
  h5py.mk_Dataset vlen_str (numpy.object_array [] [Str "B. Ravel"]) [("lang", Str "en")].

(** [h5py.vlen_dtype(numpy.dtype("S8"))]: variable-length rows whose
    elements are fixed-length strings. *)
Definition vlen_S8 : h5py.dtype := h5py.object_dtype (Some (h5py.vlen_fixed_string 8)).

Definition tags : h5py.Dataset :=
  h5py.mk_Dataset vlen_S8
    (numpy.object_array [2]
       [Opaque "array([b'Fe', b'foil'], dtype='|S8')"; Opaque "array([b'Cu'], dtype='|S8')"])
    [("unit", Str "eV")].

Definition notes : h5py.Group :=
  h5py.mk_Group "/notes" []
    [ ("author", h5py.ObjDataset author);
      ("names", h5py.ObjDataset names);
      ("tags", h5py.ObjDataset tags) ].

Definition entry : h5py.Group :=
  h5py.mk_Group "/entry" [("NX_class", Bytes "NXentry")] [("data", h5py.ObjDataset data)].

Definition file : h5py.Group :=
  h5py.mk_Group "/" [("creator", Bytes "xdi"); ("version", Int 2)]
    [ ("entry", h5py.ObjGroup entry);
      ("counts", h5py.ObjDataset counts);
      ("names", h5py.ObjDataset names);
      ("title", h5py.ObjDataset title);
      ("links", h5py.ObjDataset links);
      ("origin", h5py.ObjDataset origin);
      ("labels", h5py.ObjDataset labels) ].

Definition root : HDF5Adapter.t := HDF5Adapter.mk file None None.

Definition start : World := mkWorld [] [].

Definition permissive : AccessPolicy := mk_AccessPolicy (fun _ => true).

Definition restrictive : AccessPolicy :=
  mk_AccessPolicy (fun c => match c with HDF5Adapter_class => false | other_tree_class => true end).

Definition as_int (x : scalar) : Z := match x with Int z => z | _ => 0%Z end.

Definition sum (l : list scalar) : Z := fold_right (fun x acc => (as_int x + acc)%Z) 0%Z l.

Fixpoint running_sum (acc : Z) (l : list scalar) : list scalar :=
  match l with
  | [] => []
  | x :: r => Int (acc + as_int x) :: running_sum (acc + as_int x) r
  end.

(** The sums of [a[i:j]] for consecutive indices [i], [j] (of [a[i]]
    alone when [j <= i]), and of [a[i:]] for the last index. *)
Fixpoint window_sums (a : list scalar) (indices : list scalar) : list scalar :=
  match indices with
  | [] => []
  | i :: rest =>
      let lo := Z.to_nat (as_int i) in
      let window :=
        match rest with
        | [] => skipn lo a
        | j :: _ =>
            let hi := Z.to_nat (as_int j) in
            if Nat.ltb lo hi then firstn (hi - lo) (skipn lo a) else firstn 1 (skipn lo a)
        end in
      Int (sum window) :: window_sums a rest
  end.

(** [numpy.add] on integer arrays of one shape; the in-place effect of
    [at] on its first operand is not tracked, only its answer [None]. *)
Definition add : numpy.ufunc :=
  numpy.mk_ufunc
    (fun args _ =>
       match args with
       | [a; b] =>
           if Nat.eqb (List.length (numpy.data a)) (List.length (numpy.data b)) then
             Ok (numpy.Array (numpy.mk_ndarray (numpy.shape a)
                   (map (fun xy => Int (as_int (fst xy) + as_int (snd xy)))
                      (combine (numpy.data a) (numpy.data b)))))
           else Raise ValueError
       | _ => Raise TypeError
       end)
    (fun args _ =>
       match args with
       | [a] => Ok (numpy.Scalar (Int (sum (numpy.data a))))
       | _ => Raise TypeError
       end)
    (fun args _ =>
       match args with
       | [a] => Ok (numpy.Array (numpy.mk_ndarray (numpy.shape a) (running_sum 0 (numpy.data a))))
       | _ => Raise TypeError
       end)
    (fun args _ =>
       match args with
       | [a; indices] =>
           Ok (numpy.Array (numpy.mk_ndarray (numpy.shape indices)
                 (window_sums (numpy.data a) (numpy.data indices))))
       | _ => Raise TypeError
       end)
    (fun args _ =>
       match args with
       | [a; b] =>
           Ok (numpy.Array (numpy.mk_ndarray (numpy.shape a ++ numpy.shape b)
                 (flat_map (fun x => map (fun y => Int (as_int x + as_int y)) (numpy.data b))
                    (numpy.data a))))
       | _ => Raise TypeError
       end)
    (fun args _ =>
       match args with
       | [_; _; _] => Ok numpy.PyNone
       | _ => Raise TypeError
       end).

Definition spectrum : numpy.object := numpy.PyList [Int 1; Int 2; Int 3].

(** The instance and the interpreter state after
    [a = ArrayWithAttrs([1, 2, 3]); a.attrs["unit"] = "eV"]. *)
Definition spectrum_array : ArrayWithAttrs.t :=
  ArrayWithAttrs.mk (numpy.asarray spectrum) 0.

Definition lab : World :=
  mkWorld [[("attrs", VDict 1)]; [("unit", VScalar (Str "eV"))]] [].

End Sample.

(** * Properties *)

(** ** Dictionaries and the heap *)

Lemma dict_get_None_iff {V} (k : string) (d : list (string * V)) :
  dict_get k d = None <-> ~ In k (map fst d).
Proof.
  induction d as [|[k' v] r IH]; simpl.
  - tauto.
  - destruct (String.eqb_spec k k') as [->|Hne].
    + split; [discriminate | intros H; exfalso; apply H; now left].
    + rewrite IH. split.
      * intros H [E|HIn]; [congruence | tauto].
      * intros H HIn. apply H. now right.
Qed.

Lemma dict_get_Some_In {V} (k : string) (d : list (string * V)) (v : V) :
  dict_get k d = Some v -> In k (map fst d).
Proof.
  intros H. destruct (in_dec string_dec k (map fst d)) as [HIn|HnIn]; [exact HIn|].
  apply dict_get_None_iff in HnIn. congruence.
Qed.

Lemma update_nth_app_length {A} (f : A -> A) (l : list A) (x : A) (r : list A) :
  update_nth (List.length l) f (l ++ x :: r) = l ++ f x :: r.
Proof. induction l as [|y l IH]; simpl; [reflexivity | now rewrite IH]. Qed.

Lemma nth_error_app_length {A} (l : list A) (x : A) (r : list A) :
  nth_error (l ++ x :: r) (List.length l) = Some x.
Proof. induction l as [|y l IH]; simpl; [reflexivity | exact IH]. Qed.

Lemma nth_error_app_succ {A} (l : list A) (x y : A) (r : list A) :
  nth_error (l ++ x :: y :: r) (S (List.length l)) = Some y.
Proof. induction l as [|z l IH]; simpl; [reflexivity | exact IH]. Qed.

Lemma nth_error_app_old {A} (l r : list A) (n : nat) :
  n < List.length l -> nth_error (l ++ r) n = nth_error l n.
Proof. intros H. now apply nth_error_app1. Qed.

(** ** ArrayWithAttrs: construction *)

(** A new instance views the given buffer; its dictionary is a new
    object binding [attrs] to a new, empty dict.  Nothing allocated
    before is touched. *)
Lemma ArrayWithAttrs_new_run (input_array : numpy.object) (w : World) :
  ArrayWithAttrs.__new__ input_array w =
  (Ok (ArrayWithAttrs.mk (numpy.asarray input_array) (List.length (heap w))),
   mkWorld (heap w ++ [[("attrs", VDict (S (List.length (heap w))))]; []]) (warnings w)).
Proof.
  unfold ArrayWithAttrs.__new__, ArrayWithAttrs.__array_finalize__, bind, alloc,
    heap_update, ret.
  simpl. f_equal. f_equal.
  rewrite length_app. simpl. rewrite Nat.add_1_r.
  rewrite <- app_assoc. simpl.
  now rewrite update_nth_app_length.
Qed.


(** ** ArrayWithAttrs: ufuncs *)



(** An operand without [view] (a Python number, a list) makes the call
    raise before the kernel runs. *)
Lemma array_ufunc_python_operand
    (self : ArrayWithAttrs.t) (ufunc : numpy.ufunc) (method : numpy.method)
    (before after : list ArrayWithAttrs.operand) (x : numpy.object)
    (kwargs : numpy.Kwargs) (w : World) :
  (forall i, In i before -> exists a, ArrayWithAttrs.view_ndarray i = Ok a) ->
  ArrayWithAttrs.__array_ufunc__ self ufunc method
    (before ++ ArrayWithAttrs.a_python_value x :: after) kwargs w
  = (Raise AttributeError, w).
Proof.
  intros Hviews. unfold ArrayWithAttrs.__array_ufunc__, bind, lift.
  assert (E : res_mapM ArrayWithAttrs.view_ndarray
                (before ++ ArrayWithAttrs.a_python_value x :: after)
              = Raise AttributeError).
  { induction before as [|i r IH]; simpl.
    - reflexivity.
    - destruct (Hviews i (or_introl eq_refl)) as [a Ha]. rewrite Ha. simpl.
      rewrite IH; [reflexivity|]. intros j Hj. apply Hviews. now right. }
  now rewrite E.
Qed.

(** C6 (the code departs from it).  [a] is an [ArrayWithAttrs] whose
    metadata map holds a unit.  [a + 1] reaches [__array_ufunc__] with
    the operands [(a, 1)], the windowed reduce
    [numpy.add.reduceat(a, [0, 2])] with [(a, [0, 2])], and the indexed
    update [numpy.add.at(a, [0], 1)] with [(a, [0], 1)].  Every operand
    is asked for its [view], which a Python number or list does not have:
    each call raises [AttributeError] before the kernel runs, and no
    array carrying the metadata is returned. *)
Theorem array_ufunc_number_operand_raises :
  ArrayWithAttrs.attrs_of Sample.lab Sample.spectrum_array
  = Some [("unit", VScalar (Str "eV"))]
  /\ ArrayWithAttrs.__array_ufunc__ Sample.spectrum_array Sample.add numpy.m_call
       [ArrayWithAttrs.an_ArrayWithAttrs Sample.spectrum_array;
        ArrayWithAttrs.a_python_value (numpy.Scalar (Int 1))] [] Sample.lab
     = (Raise AttributeError, Sample.lab)
  /\ ArrayWithAttrs.__array_ufunc__ Sample.spectrum_array Sample.add numpy.m_reduceat
       [ArrayWithAttrs.an_ArrayWithAttrs Sample.spectrum_array;
        ArrayWithAttrs.a_python_value (numpy.PyList [Int 0; Int 2])] [] Sample.lab
     = (Raise AttributeError, Sample.lab)
  /\ ArrayWithAttrs.__array_ufunc__ Sample.spectrum_array Sample.add numpy.m_at
       [ArrayWithAttrs.an_ArrayWithAttrs Sample.spectrum_array;
        ArrayWithAttrs.a_python_value (numpy.PyList [Int 0]);
        ArrayWithAttrs.a_python_value (numpy.Scalar (Int 1))] [] Sample.lab
     = (Raise AttributeError, Sample.lab).
Proof. repeat split. Qed.

(** ** HDF5Adapter: construction and authentication *)

Lemma init_without_policy (node : h5py.Group) (identity : option Identity) :
  HDF5Adapter.__init__ node None identity = Ok (HDF5Adapter.mk node None identity).
Proof. reflexivity. Qed.

(** C9. Constructing a tree with an access policy raises [ValueError]
    (the incompatible-policy failure) exactly when the policy's
    compatibility check on this adapter answers false; with a compatible
    policy, or with none, construction succeeds and the tree holds the
    given node, the given policy and the given identity. *)
Theorem init_checks_policy
    (node : h5py.Group) (access_policy : option AccessPolicy)
    (identity : option Identity) :
  (forall p, access_policy = Some p ->
     (HDF5Adapter.__init__ node access_policy identity = Raise ValueError
      <-> check_compatibility p HDF5Adapter_class = false))
  /\ ((access_policy = None
       \/ exists p, access_policy = Some p /\ check_compatibility p HDF5Adapter_class = true) ->
      exists tree,
        HDF5Adapter.__init__ node access_policy identity = Ok tree
        /\ HDF5Adapter._node tree = node
        /\ HDF5Adapter.access_policy tree = access_policy
        /\ HDF5Adapter.authenticated_identity tree = identity).
Proof.
  unfold HDF5Adapter.__init__. split.
  - intros p ->. destruct (check_compatibility p HDF5Adapter_class); simpl.
    + split; discriminate.
    + split; reflexivity.
  - intros [-> | (p & -> & Hp)].
    + eexists. repeat split.
    + rewrite Hp. eexists. repeat split.
Qed.

Lemma init_checks_policy_witness :
  HDF5Adapter.__init__ Sample.file (Some Sample.restrictive) None = Raise ValueError
  /\ (exists tree,
        HDF5Adapter.__init__ Sample.file (Some Sample.permissive) (Some "alice") = Ok tree
        /\ HDF5Adapter._node tree = Sample.file
        /\ HDF5Adapter.access_policy tree = Some Sample.permissive
        /\ HDF5Adapter.authenticated_identity tree = Some "alice").
Proof.
  split.
  - apply (proj1 (init_checks_policy Sample.file (Some Sample.restrictive) None)
             Sample.restrictive eq_refl).
    reflexivity.
  - apply (proj2 (init_checks_policy Sample.file (Some Sample.permissive) (Some "alice"))).
    right. exists Sample.permissive. split; reflexivity.
Defined.

(** C7. On a tree with no identity and no access policy,
    [authenticated_as identity] returns a tree over the same container
    node that carries [identity] (and no policy); the receiver is a value
    the call does not change, so it still has no identity.  On a tree that
    already carries an identity the call raises [RuntimeError] (already
    authenticated); on a tree with no identity but with an access policy
    it raises [NotImplementedError]. *)
Theorem authenticated_as_cases (self : HDF5Adapter.t) (identity : option Identity) :
  (HDF5Adapter.authenticated_identity self = None ->
   HDF5Adapter.access_policy self = None ->
   exists tree,
     HDF5Adapter.authenticated_as self identity = Ok tree
     /\ HDF5Adapter._node tree = HDF5Adapter._node self
     /\ HDF5Adapter.access_policy tree = None
     /\ HDF5Adapter.authenticated_identity tree = identity
     /\ HDF5Adapter.authenticated_identity self = None)
  /\ (forall i, HDF5Adapter.authenticated_identity self = Some i ->
        HDF5Adapter.authenticated_as self identity = Raise RuntimeError)
  /\ (forall p, HDF5Adapter.authenticated_identity self = None ->
        HDF5Adapter.access_policy self = Some p ->
        HDF5Adapter.authenticated_as self identity = Raise NotImplementedError).
Proof.
  unfold HDF5Adapter.authenticated_identity, HDF5Adapter.access_policy,
    HDF5Adapter.authenticated_as.
  destruct self as [node policy who]; simpl.
  split; [|split].
  - intros -> ->. eexists. repeat split.
  - intros i ->. reflexivity.
  - intros p -> ->. reflexivity.
Qed.

(** Authenticating the sample root, and then the result once more. *)
Lemma authenticated_as_cases_witness :
  exists tree,
    HDF5Adapter.authenticated_as Sample.root (Some "alice") = Ok tree
    /\ HDF5Adapter._node tree = Sample.file
    /\ HDF5Adapter.authenticated_identity tree = Some "alice"
    /\ HDF5Adapter.authenticated_identity Sample.root = None
    /\ HDF5Adapter.authenticated_as tree (Some "bob") = Raise RuntimeError.
Proof.
  destruct (proj1 (authenticated_as_cases Sample.root (Some "alice")) eq_refl eq_refl)
    as (tree & Hrun & Hnode & _ & Hwho & Hself).
  exists tree. repeat split; try assumption.
  apply (proj1 (proj2 (authenticated_as_cases tree (Some "bob"))) "alice" Hwho).
Defined.

(** ** HDF5Adapter: the metadata of a tree *)

Lemma decode_attrs_cons (kv : string * scalar) (d d' : Attrs) :
  HDF5Adapter.decode_attrs (kv :: d) = Ok d' ->
  exists kv' r, HDF5Adapter.decode_item kv = Ok kv'
                /\ HDF5Adapter.decode_attrs d = Ok r /\ d' = kv' :: r.
Proof.
  unfold HDF5Adapter.decode_attrs. simpl.
  destruct (HDF5Adapter.decode_item kv) as [kv'|e]; simpl; [|discriminate].
  destruct (res_mapM HDF5Adapter.decode_item d) as [r|e]; simpl; [|discriminate].
  intros H. inversion H. now exists kv', r.
Qed.

Lemma decode_item_key (kv kv' : string * scalar) :
  HDF5Adapter.decode_item kv = Ok kv' ->
  fst kv' = fst kv /\ (forall b, snd kv' <> Bytes b).
Proof.
  unfold HDF5Adapter.decode_item. destruct kv as [k v]; simpl.
  destruct v as [z|s|b| |r]; simpl.
  5: intros H; inversion H; subst; simpl; split; [reflexivity | discriminate].
  4: intros H; inversion H; subst; simpl; split; [reflexivity | discriminate].
  3: destruct (decode b) as [s|e]; simpl; intros H; inversion H; subst; simpl;
       split; [reflexivity | discriminate].
  all: intros H; inversion H; subst; simpl; split; [reflexivity | discriminate].
Qed.

(** The metadata of a tree keeps the keys of the node's attribute store,
    in order, and holds no byte string. *)
Lemma metadata_decoded (self : HDF5Adapter.t) (d : Attrs) :
  HDF5Adapter.metadata self = Ok d ->
  map fst d = map fst (h5py.attrs (HDF5Adapter._node self))
  /\ (forall k b, ~ In (k, Bytes b) d).
Proof.
  unfold HDF5Adapter.metadata. generalize (h5py.attrs (HDF5Adapter._node self)).
  intros a. revert d. induction a as [|kv a IH]; intros d H.
  - inversion H. split; [reflexivity | intros k b []].
  - apply decode_attrs_cons in H. destruct H as (kv' & r & Hkv & Hr & ->).
    destruct (IH r Hr) as [Hkeys Hbytes].
    destruct (decode_item_key kv kv' Hkv) as [Hk Hv].
    split.
    + simpl. now rewrite Hk, Hkeys.
    + intros k b [E|HIn].
      * apply (Hv b). now rewrite E.
      * exact (Hbytes k b HIn).
Qed.

(** A byte string that is not UTF-8 makes [metadata] raise. *)
Lemma metadata_undecodable :
  HDF5Adapter.metadata
    (HDF5Adapter.mk
       (h5py.mk_Group "/" [("title", Bytes (String (ascii_of_N 255) EmptyString))] [])
       None None)
  = Raise UnicodeDecodeError.
Proof. reflexivity. Qed.

(** ** HDF5Adapter: resolving a child *)

Lemma split_path_link_name (key : string) :
  forallb (fun c => negb (Ascii.eqb c "/"%char)) (list_ascii_of_string key) = true ->
  h5py.split_path key = [key].
Proof.
  induction key as [|c key IH]; simpl; [reflexivity|].
  intros H. apply andb_true_iff in H. destruct H as [Hc Hrest].
  destruct (Ascii.eqb c "/"%char); [discriminate|].
  now rewrite (IH Hrest).
Qed.


(** For a link name, the lookup is the lookup among the members. *)
Lemma h5py_getitem_link_name (g : h5py.Group) (key : string) :
  h5py.link_name key = true ->
  h5py.getitem g key
  = match dict_get key (h5py.members g) with
    | Some v => Ok v
    | None => Raise KeyError
    end.
Proof.
  unfold h5py.link_name. intros H.
  apply andb_true_iff in H. destruct H as [H Hsep].
  apply andb_true_iff in H. destruct H as [Hempty Hdot].
  apply negb_true_iff in Hempty. apply negb_true_iff in Hdot.
  unfold h5py.getitem, h5py.components. rewrite Hempty.
  rewrite (split_path_link_name key Hsep). simpl. rewrite Hempty, Hdot. simpl.
  assert (Habs : h5py.absolute key = false).
  { destruct key as [|c key]; [reflexivity|]. simpl in *.
    apply andb_true_iff in Hsep. destruct Hsep as [Hc _].
    now apply negb_true_iff in Hc. }
  rewrite Habs. cbn [h5py.follow].
  destruct (dict_get key (h5py.members g)); reflexivity.
Qed.


Lemma h5py_getitem_member (g : h5py.Group) (key : string) :
  h5py.link_name key = true ->
  (In key (h5py.keys g) <-> exists value, h5py.getitem g key = Ok value).
Proof.
  intros Hname. rewrite (h5py_getitem_link_name g key Hname).
  unfold h5py.keys. split.
  - intros HIn. destruct (dict_get key (h5py.members g)) as [v|] eqn:E.
    + now exists v.
    + apply dict_get_None_iff in E. contradiction.
  - intros [v Hv]. destruct (dict_get key (h5py.members g)) as [v'|] eqn:E.
    + eapply dict_get_Some_In; eassumption.
    + discriminate.
Qed.

(** The lookup of the container raises nothing but [KeyError] and, for
    the empty key, [ValueError]. *)
Lemma h5py_getitem_raises (g : h5py.Group) (key : string) (e : PyErr) :
  h5py.getitem g key = Raise e -> e = KeyError \/ e = ValueError.
Proof.
  unfold h5py.getitem. destruct (String.eqb key ""); [intros H; inversion H; now right|].
  destruct (if h5py.absolute key then _ else _) as [path|].
  - destruct (h5py.follow path (h5py.ObjGroup g)); intros H; inversion H; now left.
  - intros H; inversion H; now left.
Qed.

(** An object dtype is never a fixed-length string: its string check
    answers [None] or a string of no fixed length. *)
Lemma object_dtype_has_no_length (dt : h5py.dtype) (info : h5py.string_info) :
  h5py.is_object dt = true ->
  h5py.check_string_dtype dt = Some info ->
  h5py.length info = None.
Proof.
  destruct dt as [|n c|vlen]; [| |destruct vlen as [base|]; [destruct base|]];
    simpl; try discriminate; intros _ H; inversion H; reflexivity.
Qed.

(** A dataset whose string check reports a length is not of the object
    dtype. *)
Lemma fixed_length_is_not_object (dt : h5py.dtype) (info : h5py.string_info) (n : nat) :
  h5py.check_string_dtype dt = Some info ->
  h5py.length info = Some n ->
  h5py.is_object dt = false.
Proof.
  intros Hcheck Hlen. destruct (h5py.is_object dt) eqn:Hdt; [|reflexivity].
  rewrite (object_dtype_has_no_length dt info Hdt Hcheck) in Hlen. discriminate.
Qed.

(** What [repackaged] does: a new [ArrayWithAttrs] of the given content
    is made; then either the lazy view cannot be built over it (an
    object array with a dimension), or the result is a leaf over it
    whose metadata is that array's new, empty [attrs]. *)
Lemma repackaged_run (x : numpy.object) (w : World) :
  HDF5Adapter.repackaged x w =
  (if numpy.hasobject (numpy.array x) && negb (Nat.eqb (numpy.ndim (numpy.array x)) 0)
   then Raise NotImplementedError
   else
     Ok (HDF5Adapter.a_leaf
           (ArrayAdapter.__init__
              (dask.from_array
                 (dask.of_array (ArrayWithAttrs.mk (numpy.array x) (List.length (heap w)))))
              (VDict (S (List.length (heap w)))))),
   mkWorld (heap w ++ [[("attrs", VDict (S (List.length (heap w))))]; []]) (warnings w)).
Proof.
  unfold HDF5Adapter.repackaged, bind. rewrite ArrayWithAttrs_new_run.
  unfold HDF5DatasetAdapter.__init__, bind, lift, dask.array_from_array,
    dask.hasobject, dask.ndim.
  cbn [ArrayWithAttrs.base].
  change (numpy.asarray (numpy.Array (numpy.array x))) with (numpy.array x).
  destruct (numpy.hasobject (numpy.array x)
            && negb (Nat.eqb (numpy.ndim (numpy.array x)) 0)); [reflexivity|].
  unfold HDF5DatasetAdapter.attrs, ArrayWithAttrs.getattr, heap_get.
  cbn [heap ArrayWithAttrs.__dict__]. rewrite nth_error_app_length.
  reflexivity.
Qed.

Lemma repackaged_placeholder_run (w : World) :
  HDF5Adapter.repackaged (numpy.PyList []) w =
  (Ok (HDF5Adapter.a_leaf
         (ArrayAdapter.__init__
            (dask.from_array
               (dask.of_array
                  (ArrayWithAttrs.mk (numpy.array (numpy.PyList [])) (List.length (heap w)))))
            (VDict (S (List.length (heap w)))))),
   mkWorld (heap w ++ [[("attrs", VDict (S (List.length (heap w))))]; []]) (warnings w)).
Proof. now rewrite repackaged_run. Qed.

Lemma repackaged_outcome (x : numpy.object) (w : World) :
  snd (HDF5Adapter.repackaged x w)
  = mkWorld (heap w ++ [[("attrs", VDict (S (List.length (heap w))))]; []]) (warnings w)
  /\ ((exists adapter, fst (HDF5Adapter.repackaged x w) = Ok (HDF5Adapter.a_leaf adapter))
      \/ fst (HDF5Adapter.repackaged x w) = Raise NotImplementedError).
Proof.
  rewrite repackaged_run. simpl. split; [reflexivity|].
  destruct (numpy.hasobject (numpy.array x)
            && negb (Nat.eqb (numpy.ndim (numpy.array x)) 0)).
  - now right.
  - left. eexists. reflexivity.
Qed.

Lemma repackaged_metadata_empty (x : numpy.object) (w : World) :
  forall adapter w',
    HDF5Adapter.repackaged x w = (Ok (HDF5Adapter.a_leaf adapter), w') ->
    ArrayAdapter.array adapter
    = dask.from_array (dask.of_array (ArrayWithAttrs.mk (numpy.array x) (List.length (heap w))))
    /\ ArrayAdapter.items w' (ArrayAdapter.metadata adapter) = Some []
    /\ warnings w' = warnings w.
Proof.
  intros adapter w'. rewrite repackaged_run.
  destruct (numpy.hasobject (numpy.array x)
            && negb (Nat.eqb (numpy.ndim (numpy.array x)) 0)); [discriminate|].
  intros H. inversion H; subst; clear H.
  simpl. split; [reflexivity|]. split; [|reflexivity].
  unfold heap_get. simpl. apply nth_error_app_succ.
Qed.


(** An exception of the container's lookup leaves the adapter's lookup
    as it is. *)
Lemma getitem_unresolved (self : HDF5Adapter.t) (key : string) (e : PyErr) (w : World) :
  h5py.getitem (HDF5Adapter._node self) key = Raise e ->
  HDF5Adapter.__getitem__ self key w = (Raise e, w).
Proof.
  intros H. unfold HDF5Adapter.__getitem__, bind, lift. now rewrite H.
Qed.

Lemma getitem_group (self : HDF5Adapter.t) (key : string) (g : h5py.Group) (w : World) :
  h5py.getitem (HDF5Adapter._node self) key = Ok (h5py.ObjGroup g) ->
  HDF5Adapter.__getitem__ self key w
  = (Ok (HDF5Adapter.a_tree (HDF5Adapter.mk g None None)), w).
Proof.
  intros H. unfold HDF5Adapter.__getitem__, bind, lift. now rewrite H.
Qed.

Lemma getitem_plain_dataset (self : HDF5Adapter.t) (key : string) (d : h5py.Dataset)
    (w : World) :
  h5py.getitem (HDF5Adapter._node self) key = Ok (h5py.ObjDataset d) ->
  h5py.is_object (h5py.ds_dtype d) = false ->
  HDF5Adapter.__getitem__ self key w
  = (Ok (HDF5Adapter.a_leaf
           (ArrayAdapter.__init__ (dask.from_array (dask.of_dataset d))
              (VAttrs (h5py.ds_attrs d)))), w).
Proof.
  intros H Hdt. unfold HDF5Adapter.__getitem__, bind, lift. rewrite H, Hdt.
  unfold HDF5DatasetAdapter.__init__, bind, lift, dask.array_from_array, dask.hasobject.
  rewrite Hdt. reflexivity.
Qed.

(** A key that does not start with the separator is followed from the
    group by the file's lookup as by the group's. *)
Lemma h5py_file_getitem_relative (g : h5py.Group) (key : string) (v : h5py.H5Object) :
  h5py.absolute key = false ->
  h5py.getitem g key = Ok v ->
  h5py.file_getitem g key = Ok v.
Proof.
  intros Hrel. unfold h5py.getitem, h5py.file_getitem. rewrite Hrel.
  destruct (String.eqb key ""); [discriminate|]. trivial.
Qed.

(** The object-dtype branch, up to the string check: the warning is
    emitted, then the check's answer decides; a variable-length string is
    read through the file before its size is looked at. *)
Lemma getitem_object_dataset_any_key (self : HDF5Adapter.t) (key : string)
    (d : h5py.Dataset) (w : World) :
  h5py.getitem (HDF5Adapter._node self) key = Ok (h5py.ObjDataset d) ->
  h5py.is_object (h5py.ds_dtype d) = true ->
  HDF5Adapter.__getitem__ self key w
  = let w1 := mkWorld (heap w) (warnings w ++ [HDF5Adapter.object_type_warning key]) in
    match h5py.check_string_dtype (h5py.ds_dtype d) with
    | None => (Raise AttributeError, w1)
    | Some info =>
        match h5py.length info with
        | None =>
            match res_bind (h5py.file_getitem (HDF5Adapter._node self) key)
                    h5py.read_object with
            | Ok dataset_names =>
                if Nat.eqb (h5py.ds_size d) 1
                then HDF5Adapter.repackaged dataset_names w1
                else HDF5Adapter.repackaged (numpy.PyList []) w1
            | Raise e => (Raise e, w1)
            end
        | Some _ => HDF5Adapter.repackaged (numpy.PyList []) w1
        end
    end.
Proof.
  intros H Hdt. unfold HDF5Adapter.__getitem__, bind, lift, warn, raise.
  rewrite H, Hdt. cbv zeta.
  destruct (h5py.check_string_dtype (h5py.ds_dtype d)) as [info|]; [|reflexivity].
  destruct (h5py.length info); [reflexivity|].
  destruct (res_bind (h5py.file_getitem (HDF5Adapter._node self) key) h5py.read_object);
    [|reflexivity].
  destruct (Nat.eqb (h5py.ds_size d) 1); reflexivity.
Qed.

(** For a key that does not start with the separator, what is read
    through the file is the payload of the dataset that the key resolved
    to. *)
Lemma getitem_object_dataset (self : HDF5Adapter.t) (key : string) (d : h5py.Dataset)
    (w : World) :
  h5py.absolute key = false ->
  h5py.getitem (HDF5Adapter._node self) key = Ok (h5py.ObjDataset d) ->
  h5py.is_object (h5py.ds_dtype d) = true ->
  HDF5Adapter.__getitem__ self key w
  = let w1 := mkWorld (heap w) (warnings w ++ [HDF5Adapter.object_type_warning key]) in
    match h5py.check_string_dtype (h5py.ds_dtype d) with
    | None => (Raise AttributeError, w1)
    | Some info =>
        match h5py.length info with
        | None =>
            if Nat.eqb (h5py.ds_size d) 1
            then HDF5Adapter.repackaged (h5py.read d) w1
            else HDF5Adapter.repackaged (numpy.PyList []) w1
        | Some _ => HDF5Adapter.repackaged (numpy.PyList []) w1
        end
    end.
Proof.
  intros Hrel H Hdt. rewrite (getitem_object_dataset_any_key self key d w H Hdt).
  now rewrite (h5py_file_getitem_relative _ key _ Hrel H).
Qed.

(** An object dataset that is not an HDF5 string (the string check
    answers [None]) makes the lookup raise [AttributeError], whatever
    its size. *)
Lemma getitem_object_not_string (self : HDF5Adapter.t) (key : string) (d : h5py.Dataset)
    (w : World) :
  h5py.getitem (HDF5Adapter._node self) key = Ok (h5py.ObjDataset d) ->
  h5py.is_object (h5py.ds_dtype d) = true ->
  h5py.check_string_dtype (h5py.ds_dtype d) = None ->
  fst (HDF5Adapter.__getitem__ self key w) = Raise AttributeError.
Proof.
  intros H Hdt Hcheck. rewrite (getitem_object_dataset_any_key self key d w H Hdt).
  cbv zeta. now rewrite Hcheck.
Qed.

(** A variable-length string dataset that does not hold exactly one
    element resolves to the empty placeholder. *)
Lemma getitem_vlen_string_placeholder (self : HDF5Adapter.t) (key : string)
    (d : h5py.Dataset) (info : h5py.string_info) (w : World) :
  h5py.absolute key = false ->
  h5py.getitem (HDF5Adapter._node self) key = Ok (h5py.ObjDataset d) ->
  h5py.is_object (h5py.ds_dtype d) = true ->
  h5py.check_string_dtype (h5py.ds_dtype d) = Some info ->
  h5py.length info = None ->
  h5py.ds_size d <> 1 ->
  exists adapter w',
    HDF5Adapter.__getitem__ self key w = (Ok (HDF5Adapter.a_leaf adapter), w')
    /\ dask.size (ArrayAdapter.array adapter) = 0
    /\ ArrayAdapter.items w' (ArrayAdapter.metadata adapter) = Some [].
Proof.
  intros Hrel H Hdt Hcheck Hlen Hsize.
  rewrite (getitem_object_dataset self key d w Hrel H Hdt).
  cbv zeta. rewrite Hcheck, Hlen.
  apply Nat.eqb_neq in Hsize. rewrite Hsize. rewrite repackaged_placeholder_run.
  eexists. eexists. split; [reflexivity|]. split; [reflexivity|].
  unfold ArrayAdapter.items, heap_get. cbn [ArrayAdapter.metadata heap].
  apply nth_error_app_succ.
Qed.

(** A scalar variable-length string dataset (shape [()], one element)
    resolves to a leaf over the payload, read eagerly, with empty
    metadata. *)
Lemma getitem_vlen_string_single (self : HDF5Adapter.t) (key : string)
    (d : h5py.Dataset) (info : h5py.string_info) (x : scalar) (w : World) :
  h5py.absolute key = false ->
  h5py.getitem (HDF5Adapter._node self) key = Ok (h5py.ObjDataset d) ->
  h5py.is_object (h5py.ds_dtype d) = true ->
  h5py.check_string_dtype (h5py.ds_dtype d) = Some info ->
  h5py.length info = None ->
  numpy.shape (h5py.ds_value d) = [] ->
  numpy.data (h5py.ds_value d) = [x] ->
  exists adapter w' arr,
    HDF5Adapter.__getitem__ self key w = (Ok (HDF5Adapter.a_leaf adapter), w')
    /\ ArrayAdapter.array adapter = dask.from_array (dask.of_array arr)
    /\ numpy.shape (ArrayWithAttrs.base arr) = []
    /\ numpy.data (ArrayWithAttrs.base arr) = [x]
    /\ dask.size (ArrayAdapter.array adapter) = 1
    /\ ArrayAdapter.items w' (ArrayAdapter.metadata adapter) = Some []
    /\ warnings w' = warnings w ++ [HDF5Adapter.object_type_warning key].
Proof.
  intros Hrel H Hdt Hcheck Hlen Hshape Hdata.
  rewrite (getitem_object_dataset self key d w Hrel H Hdt).
  cbv zeta. rewrite Hcheck, Hlen.
  unfold h5py.ds_size, numpy.size, h5py.read. rewrite Hshape, Hdata. cbn [fold_right Nat.eqb].
  rewrite repackaged_run. unfold numpy.array, numpy.asarray, numpy.ndim.
  cbn [numpy.hasobject numpy.shape List.length Nat.eqb negb]. rewrite andb_false_r.
  eexists. eexists. eexists. split; [reflexivity|].
  cbn [ArrayAdapter.array ArrayAdapter.metadata ArrayWithAttrs.base heap warnings].
  split; [reflexivity|]. split; [reflexivity|]. split; [reflexivity|].
  split; [reflexivity|]. split; [|reflexivity].
  unfold ArrayAdapter.items, heap_get. cbn [heap].
  apply nth_error_app_succ.
Qed.





(** Whatever becomes of a dataset of the object dtype, the warning was
    emitted. *)
Lemma getitem_object_dataset_warns (self : HDF5Adapter.t) (key : string)
    (d : h5py.Dataset) (w : World) :
  h5py.getitem (HDF5Adapter._node self) key = Ok (h5py.ObjDataset d) ->
  h5py.is_object (h5py.ds_dtype d) = true ->
  warnings (snd (HDF5Adapter.__getitem__ self key w))
  = warnings w ++ [HDF5Adapter.object_type_warning key].
Proof.
  intros H Hdt. rewrite (getitem_object_dataset_any_key self key d w H Hdt). cbv zeta.
  assert (Hrep : forall x,
            warnings (snd (HDF5Adapter.repackaged x
                             (mkWorld (heap w)
                                (warnings w ++ [HDF5Adapter.object_type_warning key]))))
            = warnings w ++ [HDF5Adapter.object_type_warning key]).
  { intros x. now rewrite (proj1 (repackaged_outcome x _)). }
  destruct (h5py.check_string_dtype (h5py.ds_dtype d)) as [info|]; [|reflexivity].
  destruct (h5py.length info); [apply Hrep|].
  destruct (res_bind (h5py.file_getitem (HDF5Adapter._node self) key) h5py.read_object);
    [|reflexivity].
  destruct (Nat.eqb (h5py.ds_size d) 1); apply Hrep.
Qed.

(** The leaf that a dataset of the object dtype resolves to, when it
    does, is over a new in-memory array, never over the dataset. *)
Lemma getitem_object_dataset_leaf (self : HDF5Adapter.t) (key : string)
    (d : h5py.Dataset) (w w' : World) (adapter : ArrayAdapter.t) :
  h5py.getitem (HDF5Adapter._node self) key = Ok (h5py.ObjDataset d) ->
  h5py.is_object (h5py.ds_dtype d) = true ->
  HDF5Adapter.__getitem__ self key w = (Ok (HDF5Adapter.a_leaf adapter), w') ->
  exists arr, ArrayAdapter.array adapter = dask.from_array (dask.of_array arr).
Proof.
  intros H Hdt. rewrite (getitem_object_dataset_any_key self key d w H Hdt). cbv zeta.
  assert (Hrep : forall x w1,
            HDF5Adapter.repackaged x w1 = (Ok (HDF5Adapter.a_leaf adapter), w') ->
            exists arr, ArrayAdapter.array adapter = dask.from_array (dask.of_array arr)).
  { intros x w1 E. destruct (repackaged_metadata_empty x w1 adapter w' E) as [Ha _].
    eexists. exact Ha. }
  destruct (h5py.check_string_dtype (h5py.ds_dtype d)) as [info|]; [|discriminate].
  destruct (h5py.length info); [apply Hrep|].
  destruct (res_bind (h5py.file_getitem (HDF5Adapter._node self) key) h5py.read_object);
    [|discriminate].
  destruct (Nat.eqb (h5py.ds_size d) 1); apply Hrep.
Qed.

(** C2 (as amended).  A dataset whose element type is a fixed-length
    string (its string check reports a length) is not of the object
    dtype and is treated as normal: the lookup returns, with no warning,
    a leaf over a lazy view of the dataset whose metadata is the
    dataset's attribute store as it is.  A dataset of the object dtype is
    never treated as normal, whatever its variable-length element is:
    the warning is emitted, and a leaf that is returned is over a new
    in-memory array, not over the dataset. *)
Theorem getitem_fixed_length_string_is_normal (self : HDF5Adapter.t) (key : string)
    (d : h5py.Dataset) (w : World) :
  h5py.getitem (HDF5Adapter._node self) key = Ok (h5py.ObjDataset d) ->
  (forall info n,
      h5py.check_string_dtype (h5py.ds_dtype d) = Some info ->
      h5py.length info = Some n ->
      h5py.is_object (h5py.ds_dtype d) = false
      /\ HDF5Adapter.__getitem__ self key w
         = (Ok (HDF5Adapter.a_leaf
                  (ArrayAdapter.__init__ (dask.from_array (dask.of_dataset d))
                     (VAttrs (h5py.ds_attrs d)))), w))
  /\ (h5py.is_object (h5py.ds_dtype d) = true ->
      warnings (snd (HDF5Adapter.__getitem__ self key w))
      = warnings w ++ [HDF5Adapter.object_type_warning key]
      /\ forall adapter w',
           HDF5Adapter.__getitem__ self key w = (Ok (HDF5Adapter.a_leaf adapter), w') ->
           ArrayAdapter.array adapter <> dask.from_array (dask.of_dataset d)).
Proof.
  intros H. split.
  - intros info n Hcheck Hlen.
    pose proof (fixed_length_is_not_object _ info n Hcheck Hlen) as Hdt.
    split; [exact Hdt|]. now apply getitem_plain_dataset.
  - intros Hdt. split; [exact (getitem_object_dataset_warns self key d w H Hdt)|].
    intros adapter w' E.
    destruct (getitem_object_dataset_leaf self key d w w' adapter H Hdt E) as [arr Ha].
    rewrite Ha. discriminate.
Qed.

Lemma getitem_fixed_length_string_is_normal_witness :
  (h5py.is_object (h5py.ds_dtype Sample.labels) = false
   /\ HDF5Adapter.__getitem__ Sample.root "labels" Sample.start
      = (Ok (HDF5Adapter.a_leaf
               (ArrayAdapter.__init__ (dask.from_array (dask.of_dataset Sample.labels))
                  (VAttrs [("unit", Str "eV")]))), Sample.start))
  /\ warnings (snd (HDF5Adapter.__getitem__ Sample.root "names" Sample.start))
     = [HDF5Adapter.object_type_warning "names"].
Proof.
  split.
  - exact (proj1 (getitem_fixed_length_string_is_normal Sample.root "labels" Sample.labels
                    Sample.start eq_refl)
             (h5py.mk_string_info "ascii" (Some 8)) 8 eq_refl eq_refl).
  - exact (proj1 (proj2 (getitem_fixed_length_string_is_normal Sample.root "names"
                           Sample.names Sample.start eq_refl) eq_refl)).
Defined.

(** C2 as stated fails: [tags] holds variable-length rows whose elements
    are fixed-length strings, [h5py.vlen_dtype(numpy.dtype("S8"))].  Its
    dtype is the object dtype, so it is not wrapped as a normal leaf: the
    warning is emitted, the string check answers [None] for rows, and
    the lookup raises [AttributeError]. *)
Lemma getitem_rows_of_fixed_strings_not_normal :
  h5py.getitem Sample.notes "tags" = Ok (h5py.ObjDataset Sample.tags)
  /\ h5py.ds_dtype Sample.tags = h5py.object_dtype (Some (h5py.vlen_fixed_string 8))
  /\ h5py.is_object (h5py.ds_dtype Sample.tags) = true
  /\ h5py.check_string_dtype (h5py.ds_dtype Sample.tags) = None
  /\ HDF5Adapter.__getitem__ (HDF5Adapter.mk Sample.notes None None) "tags" Sample.start
     = (Raise AttributeError, mkWorld [] [HDF5Adapter.object_type_warning "tags"]).
Proof. repeat split. Qed.

(** C1 (the code departs from it).  [links] holds two object references:
    its dtype is the object dtype and it has more than one element, yet
    the lookup does not return the empty placeholder.  The string check
    answers [None] for a dtype that is not a string, and reading
    [length] off it raises [AttributeError] right after the warning. *)
Theorem getitem_reference_pair_raises :
  h5py.getitem Sample.file "links" = Ok (h5py.ObjDataset Sample.links)
  /\ h5py.is_object (h5py.ds_dtype Sample.links) = true
  /\ h5py.ds_size Sample.links = 2
  /\ HDF5Adapter.__getitem__ Sample.root "links" Sample.start
     = (Raise AttributeError, mkWorld [] [HDF5Adapter.object_type_warning "links"]).
Proof. repeat split. Qed.

(** C5 (the code departs from it).  [origin] holds a single object
    reference: object dtype, exactly one element, and the lookup raises
    [AttributeError] instead of repackaging the payload. *)
Theorem getitem_single_reference_raises :
  h5py.getitem Sample.file "origin" = Ok (h5py.ObjDataset Sample.origin)
  /\ h5py.is_object (h5py.ds_dtype Sample.origin) = true
  /\ h5py.ds_size Sample.origin = 1
  /\ HDF5Adapter.__getitem__ Sample.root "origin" Sample.start
     = (Raise AttributeError, mkWorld [] [HDF5Adapter.object_type_warning "origin"]).
Proof. repeat split. Qed.

(** ** HDF5Adapter: membership *)

(** The membership test answers [False] for a key that the container
    does not resolve, without raising. *)
Lemma contains_missing (self : HDF5Adapter.t) (key : string) (w : World) :
  h5py.getitem (HDF5Adapter._node self) key = Raise KeyError ->
  HDF5Adapter.__contains__ self key w = (Ok false, w).
Proof.
  intros H. unfold HDF5Adapter.__contains__.
  now rewrite (getitem_unresolved self key KeyError w H).
Qed.

(** It answers [True] when the lookup returns, and leaves the
    interpreter as the lookup left it. *)
Lemma contains_resolved (self : HDF5Adapter.t) (key : string) (w w' : World)
    (c : HDF5Adapter.child) :
  HDF5Adapter.__getitem__ self key w = (Ok c, w') ->
  HDF5Adapter.__contains__ self key w = (Ok true, w').
Proof. intros H. unfold HDF5Adapter.__contains__. now rewrite H. Qed.


(** Any other exception of the lookup leaves the membership test too. *)
Lemma contains_raises (self : HDF5Adapter.t) (key : string) (w w' : World) (e : PyErr) :
  HDF5Adapter.__getitem__ self key w = (Raise e, w') ->
  e <> KeyError ->
  HDF5Adapter.__contains__ self key w = (Raise e, w').
Proof.
  intros H He. unfold HDF5Adapter.__contains__. rewrite H.
  destruct e; try reflexivity. contradiction.
Qed.

(** C10 (the code departs from it).  [links] is a member of the sample
    root, yet the membership test does not answer [True]: it resolves the
    child through [__getitem__], which raises [AttributeError] for this
    object dataset, and only [KeyError] is caught. *)
Theorem contains_reference_pair_raises :
  In "links" (HDF5Adapter.__iter__ Sample.root)
  /\ HDF5Adapter.__contains__ Sample.root "links" Sample.start
     = (Raise AttributeError, mkWorld [] [HDF5Adapter.object_type_warning "links"])
  /\ HDF5Adapter.__contains__ Sample.root "missing" Sample.start = (Ok false, Sample.start)
  /\ fst (HDF5Adapter.__contains__ Sample.root "names" Sample.start) = Ok true.
Proof.
  split; [simpl; tauto|]. repeat split.
Qed.

(** ** HDF5Adapter: the indexers *)

Lemma len_iter (self : HDF5Adapter.t) :
  List.length (HDF5Adapter.__iter__ self) = HDF5Adapter.__len__ self.
Proof. unfold HDF5Adapter.__iter__, HDF5Adapter.__len__, h5py.keys. apply length_map. Qed.

Lemma list_slice_all {A} (l : list A) :
  list_slice l (Some 0%Z) (Some (Z.of_nat (List.length l))) = l.
Proof.
  unfold list_slice, slice_bound. simpl.
  destruct (Z.of_nat (List.length l) <? 0)%Z eqn:E; [apply Z.ltb_lt in E; lia|].
  rewrite Z.min_id, Z.min_l by lia.
  rewrite Z.sub_0_r, Nat2Z.id. simpl. apply firstn_all.
Qed.

(** Forward, the keys slice is the slice of the names in container order. *)
Lemma keys_slice_forward (self : HDF5Adapter.t) (start stop : option Z) (direction : Z) :
  (0 <= direction)%Z ->
  HDF5Adapter._keys_slice self start stop direction
  = Ok (list_slice (HDF5Adapter.__iter__ self) start stop).
Proof.
  intros H. unfold HDF5Adapter._keys_slice.
  apply Z.ltb_ge in H. rewrite H. reflexivity.
Qed.

Lemma keys_slice_forward_all (self : HDF5Adapter.t) (direction : Z) :
  (0 <= direction)%Z ->
  HDF5Adapter._keys_slice self (Some 0%Z) (Some (Z.of_nat (HDF5Adapter.__len__ self))) direction
  = Ok (HDF5Adapter.__iter__ self).
Proof.
  intros H. rewrite keys_slice_forward by exact H.
  rewrite <- len_iter. now rewrite list_slice_all.
Qed.

(** Backward, [reversed(keys)] is an iterator, and subscripting it raises
    [TypeError] whatever the bounds. *)
Lemma keys_slice_backward (self : HDF5Adapter.t) (start stop : option Z) (direction : Z) :
  (direction < 0)%Z ->
  HDF5Adapter._keys_slice self start stop direction = Raise TypeError.
Proof.
  intros H. unfold HDF5Adapter._keys_slice.
  apply Z.ltb_lt in H. rewrite H. reflexivity.
Qed.

Lemma items_slice_backward (self : HDF5Adapter.t) (start stop : option Z) (direction : Z)
    (w : World) :
  (direction < 0)%Z ->
  forall items, fst (HDF5Adapter._items_slice self start stop direction w) <> Ok items.
Proof.
  intros H items. unfold HDF5Adapter._items_slice, bind, lift.
  apply Z.ltb_lt in H. rewrite H.
  destruct (mapM _ (HDF5Adapter.__iter__ self) w) as [[l|e] w']; simpl; discriminate.
Qed.

Lemma item_by_index_backward (self : HDF5Adapter.t) (index direction : Z) :
  (direction < 0)%Z ->
  HDF5Adapter._item_by_index self index direction = Raise TypeError.
Proof.
  intros H. unfold HDF5Adapter._item_by_index.
  apply Z.ltb_lt in H. rewrite H. reflexivity.
Qed.

(** Forward, an index names the key at that position, counting from the
    end when negative, and raises [IndexError] outside [-n, n). *)
Lemma item_by_index_forward (self : HDF5Adapter.t) (index direction : Z) :
  (0 <= direction)%Z ->
  let n := Z.of_nat (HDF5Adapter.__len__ self) in
  ((0 <= index < n)%Z ->
     exists key, HDF5Adapter._item_by_index self index direction = Ok key
                 /\ nth_error (HDF5Adapter.__iter__ self) (Z.to_nat index) = Some key)
  /\ ((- n <= index < 0)%Z ->
     exists key, HDF5Adapter._item_by_index self index direction = Ok key
                 /\ nth_error (HDF5Adapter.__iter__ self) (Z.to_nat (index + n)) = Some key)
  /\ ((index < - n \/ n <= index)%Z ->
     HDF5Adapter._item_by_index self index direction = Raise IndexError).
Proof.
  intros H n. unfold HDF5Adapter._item_by_index, getindex, list_index.
  apply Z.ltb_ge in H. rewrite H. rewrite len_iter. fold n.
  assert (Hlen : forall j, (0 <= j < n)%Z ->
            exists key, nth_error (HDF5Adapter.__iter__ self) (Z.to_nat j) = Some key).
  { intros j Hj.
    destruct (nth_error (HDF5Adapter.__iter__ self) (Z.to_nat j)) as [k|] eqn:E.
    - now exists k.
    - apply nth_error_None in E. rewrite len_iter in E. unfold n in Hj. lia. }
  split; [|split].
  - intros Hi. destruct (Z.ltb_spec index 0); [lia|].
    destruct (Hlen index Hi) as [k Hk]. exists k. rewrite Hk.
    replace ((0 <=? index) && (index <? n))%Z with true; [now split|].
    symmetry. apply andb_true_iff. split; [apply Z.leb_le | apply Z.ltb_lt]; lia.
  - intros Hi. destruct (Z.ltb_spec index 0); [|lia].
    destruct (Hlen (index + n)%Z ltac:(lia)) as [k Hk]. exists k. rewrite Hk.
    replace ((0 <=? index + n) && (index + n <? n))%Z with true; [now split|].
    symmetry. apply andb_true_iff. split; [apply Z.leb_le | apply Z.ltb_lt]; lia.
  - intros Hi. destruct (Z.ltb_spec index 0).
    + replace ((0 <=? index + n) && (index + n <? n))%Z with false; [reflexivity|].
      symmetry. apply andb_false_iff. left. apply Z.leb_gt. lia.
    + replace ((0 <=? index) && (index <? n))%Z with false; [reflexivity|].
      symmetry. apply andb_false_iff. right. apply Z.ltb_ge. lia.
Qed.


(** C3 (the code departs from it).  The sample root has seven members.
    Forward, the keys slice over [0, 7) is the seven names; backward, the
    same call raises [TypeError] instead of returning them reversed. *)
Theorem keys_slice_backward_raises :
  HDF5Adapter.__len__ Sample.root = 7
  /\ HDF5Adapter._keys_slice Sample.root (Some 0%Z) (Some 7%Z) 1
     = Ok ["entry"; "counts"; "names"; "title"; "links"; "origin"; "labels"]
  /\ HDF5Adapter._keys_slice Sample.root (Some 0%Z) (Some 7%Z) (-1) = Raise TypeError
  /\ HDF5Adapter._keys_slice Sample.root (Some 1%Z) (Some 3%Z) (-1) = Raise TypeError.
Proof. repeat split. Qed.

(** C4 (the code departs from it).  Backward, the single-key lookup
    raises [TypeError] at a position that is in bounds, where the last
    name is expected, and at a position that is out of bounds, where
    [IndexError] is expected (and raised forward). *)
Theorem item_by_index_backward_raises :
  HDF5Adapter._item_by_index Sample.root 0 (-1) = Raise TypeError
  /\ HDF5Adapter._item_by_index Sample.root 7 (-1) = Raise TypeError
  /\ HDF5Adapter._item_by_index Sample.root 7 1 = Raise IndexError
  /\ HDF5Adapter._item_by_index Sample.root 6 1 = Ok "labels".
Proof. repeat split. Qed.

(** * Further properties *)

(** ** The metadata of a tree *)

Lemma decode_same_bytes (b s : string) : decode b = Ok s -> s = b.
Proof.
  unfold decode. destruct (utf8_valid _); intros H; inversion H; reflexivity.
Qed.

Lemma decode_Ok_iff (b : string) :
  utf8_valid (map N_of_ascii (list_ascii_of_string b)) = true <-> decode b = Ok b.
Proof.
  unfold decode. destruct (utf8_valid _); split; intros H; try reflexivity; discriminate.
Qed.

Lemma decode_Raise_inv (b : string) (e : PyErr) :
  decode b = Raise e ->
  e = UnicodeDecodeError /\ utf8_valid (map N_of_ascii (list_ascii_of_string b)) = false.
Proof.
  unfold decode. destruct (utf8_valid _); intros H; inversion H. now split.
Qed.

Lemma decode_item_text (kv kv' : string * scalar) :
  HDF5Adapter.decode_item kv = Ok kv' ->
  kv' = match snd kv with Bytes b => (fst kv, Str b) | _ => kv end.
Proof.
  unfold HDF5Adapter.decode_item. destruct kv as [k v]; simpl.
  destruct v as [z|s|b| |r]; simpl; try (intros H; inversion H; reflexivity).
  destruct (decode b) as [s|e] eqn:E; simpl; intros H; inversion H.
  now rewrite (decode_same_bytes b s E).
Qed.

Lemma decode_attrs_text (d d' : Attrs) :
  HDF5Adapter.decode_attrs d = Ok d' ->
  d' = map (fun kv => match snd kv with Bytes b => (fst kv, Str b) | _ => kv end) d.
Proof.
  revert d'. induction d as [|kv d IH]; intros d' H.
  - inversion H. reflexivity.
  - apply decode_attrs_cons in H. destruct H as (kv' & r & Hkv & Hr & ->).
    simpl. now rewrite (decode_item_text kv kv' Hkv), (IH r Hr).
Qed.

Lemma decode_attrs_Ok_valid (d d' : Attrs) :
  HDF5Adapter.decode_attrs d = Ok d' ->
  forall k b, In (k, Bytes b) d ->
    utf8_valid (map N_of_ascii (list_ascii_of_string b)) = true.
Proof.
  revert d'. induction d as [|kv d IH]; intros d' H k b HIn; [destruct HIn|].
  apply decode_attrs_cons in H. destruct H as (kv' & r & Hkv & Hr & ->).
  destruct HIn as [->|HIn]; [|exact (IH r Hr k b HIn)].
  unfold HDF5Adapter.decode_item in Hkv. simpl in Hkv.
  destruct (decode b) as [s|e] eqn:E; [|discriminate].
  apply decode_Ok_iff. now rewrite E, (decode_same_bytes b s E).
Qed.

Lemma decode_attrs_valid (d : Attrs) :
  (forall k b, In (k, Bytes b) d ->
     utf8_valid (map N_of_ascii (list_ascii_of_string b)) = true) ->
  HDF5Adapter.decode_attrs d
  = Ok (map (fun kv => match snd kv with Bytes b => (fst kv, Str b) | _ => kv end) d).
Proof.
  unfold HDF5Adapter.decode_attrs. induction d as [|[k v] d IH]; intros H; [reflexivity|].
  simpl. rewrite IH by (intros k' b' HIn; apply (H k' b'); now right).
  unfold HDF5Adapter.decode_item. simpl.
  destruct v as [z|s|b| |r]; simpl; try reflexivity.
  assert (E : decode b = Ok b) by (apply decode_Ok_iff, (H k b); now left).
  now rewrite E.
Qed.

Lemma decode_attrs_Raise_inv (d : Attrs) (e : PyErr) :
  HDF5Adapter.decode_attrs d = Raise e ->
  e = UnicodeDecodeError
  /\ exists k b, In (k, Bytes b) d
                 /\ utf8_valid (map N_of_ascii (list_ascii_of_string b)) = false.
Proof.
  unfold HDF5Adapter.decode_attrs. induction d as [|[k v] d IH]; simpl; [discriminate|].
  destruct (HDF5Adapter.decode_item (k, v)) as [kv'|e'] eqn:Hkv; simpl.
  - destruct (res_mapM HDF5Adapter.decode_item d) as [r|e'']; simpl; [discriminate|].
    intros H. inversion H; subst. destruct (IH eq_refl) as [He (k' & b' & HIn & Hb)].
    split; [exact He|]. exists k', b'. split; [now right | exact Hb].
  - intros H. inversion H; subst. unfold HDF5Adapter.decode_item in Hkv. simpl in Hkv.
    destruct v as [z|s|b| |r]; simpl in Hkv; try discriminate.
    destruct (decode b) as [s|e''] eqn:E; simpl in Hkv; [discriminate|].
    inversion Hkv; subst. destruct (decode_Raise_inv b e E) as [He Hb].
    split; [exact He|]. exists k, b. split; [now left | exact Hb].
Qed.

Lemma utf8_valid_ascii (bs : list N) :
  Forall (fun b => (b <= 127)%N) bs -> utf8_valid bs = true.
Proof.
  induction 1 as [|b bs Hb _ IH]; [reflexivity|].
  simpl. apply N.leb_le in Hb. now rewrite Hb.
Qed.

(** X1.  When [metadata] returns, it returns the node's attribute store
    with the same keys in the same order, every byte-string value
    replaced by the text of those same bytes and every other value left
    as it is. *)
Theorem metadata_replaces_bytes_by_text (self : HDF5Adapter.t) (d : Attrs) :
  HDF5Adapter.metadata self = Ok d ->
  d = map (fun kv => match snd kv with Bytes b => (fst kv, Str b) | _ => kv end)
        (h5py.attrs (HDF5Adapter._node self))
  /\ map fst d = map fst (h5py.attrs (HDF5Adapter._node self))
  /\ (forall k b, ~ In (k, Bytes b) d).
Proof.
  intros H. split; [|exact (metadata_decoded self d H)].
  now apply decode_attrs_text.
Qed.

Lemma metadata_replaces_bytes_by_text_witness :
  [("creator", Str "xdi"); ("version", Int 2)]
  = map (fun kv => match snd kv with Bytes b => (fst kv, Str b) | _ => kv end)
      [("creator", Bytes "xdi"); ("version", Int 2)]
  /\ map fst [("creator", Str "xdi"); ("version", Int 2)] = ["creator"; "version"]
  /\ (forall k b, ~ In (k, Bytes b) [("creator", Str "xdi"); ("version", Int 2)]).
Proof.
  exact (metadata_replaces_bytes_by_text Sample.root
           [("creator", Str "xdi"); ("version", Int 2)] eq_refl).
Defined.

(** X2.  [metadata] raises exactly when some byte-string attribute of
    the node is not well-formed UTF-8, and the only exception it raises
    is [UnicodeDecodeError]. *)
Theorem metadata_raises_iff_undecodable (self : HDF5Adapter.t) :
  (HDF5Adapter.metadata self = Raise UnicodeDecodeError
   <-> exists k b, In (k, Bytes b) (h5py.attrs (HDF5Adapter._node self))
                   /\ utf8_valid (map N_of_ascii (list_ascii_of_string b)) = false)
  /\ (forall e, HDF5Adapter.metadata self = Raise e -> e = UnicodeDecodeError).
Proof.
  unfold HDF5Adapter.metadata. split; [split|].
  - intros H. exact (proj2 (decode_attrs_Raise_inv _ _ H)).
  - intros (k & b & HIn & Hb).
    destruct (HDF5Adapter.decode_attrs (h5py.attrs (HDF5Adapter._node self)))
      as [d|e] eqn:E.
    + rewrite (decode_attrs_Ok_valid _ d E k b HIn) in Hb. discriminate.
    + now rewrite (proj1 (decode_attrs_Raise_inv _ e E)).
  - intros e H. exact (proj1 (decode_attrs_Raise_inv _ e H)).
Qed.

(** X3.  On a node whose byte-string attributes are all ASCII,
    [metadata] returns: the decoded map, as in X1. *)
Theorem metadata_of_ascii_attributes (self : HDF5Adapter.t) :
  (forall k b, In (k, Bytes b) (h5py.attrs (HDF5Adapter._node self)) ->
     Forall (fun c => (N_of_ascii c <= 127)%N) (list_ascii_of_string b)) ->
  HDF5Adapter.metadata self
  = Ok (map (fun kv => match snd kv with Bytes b => (fst kv, Str b) | _ => kv end)
          (h5py.attrs (HDF5Adapter._node self))).
Proof.
  intros H. unfold HDF5Adapter.metadata. apply decode_attrs_valid.
  intros k b HIn. apply utf8_valid_ascii. apply Forall_map. exact (H k b HIn).
Qed.

Lemma metadata_of_ascii_attributes_witness :
  HDF5Adapter.metadata Sample.root = Ok [("creator", Str "xdi"); ("version", Int 2)].
Proof.
  apply (metadata_of_ascii_attributes Sample.root).
  simpl. intros k b [H|[H|[]]]; inversion H; subst.
  repeat constructor; vm_compute; discriminate.
Defined.

(** X4.  Decoding is idempotent: a node whose attribute store is the
    metadata of another has that same map as its own metadata. *)
Theorem metadata_of_metadata (self other : HDF5Adapter.t) (d : Attrs) :
  HDF5Adapter.metadata self = Ok d ->
  h5py.attrs (HDF5Adapter._node other) = d ->
  HDF5Adapter.metadata other = Ok d.
Proof.
  intros H Hother. unfold HDF5Adapter.metadata. rewrite Hother.
  destruct (metadata_decoded self d H) as [_ Hbytes].
  rewrite decode_attrs_valid.
  - f_equal. clear H Hother. induction d as [|[k v] d IH]; [reflexivity|].
    simpl. rewrite IH by (intros k' b' HIn; apply (Hbytes k' b'); now right).
    destruct v as [z|s|b| |r]; try reflexivity.
    exfalso. apply (Hbytes k b). now left.
  - intros k b HIn. exfalso. exact (Hbytes k b HIn).
Qed.

Lemma metadata_of_metadata_witness :
  HDF5Adapter.metadata
    (HDF5Adapter.mk (h5py.mk_Group "/copy" [("creator", Str "xdi"); ("version", Int 2)] [])
       None None)
  = Ok [("creator", Str "xdi"); ("version", Int 2)].
Proof.
  apply (metadata_of_metadata Sample.root); reflexivity.
Defined.

(** ** Resolving a child: errors and effects *)



(** X6.  A lookup only ever adds to the interpreter: the dict objects
    that existed stay as they were, and the warnings grow by exactly one
    message, naming the key, when the key resolves to a dataset of
    object dtype (also when the lookup then raises), and by none
    otherwise. *)
Theorem getitem_effects (self : HDF5Adapter.t) (key : string) (w : World) :
  (exists more, heap (snd (HDF5Adapter.__getitem__ self key w)) = heap w ++ more)
  /\ (forall l, l < List.length (heap w) ->
        heap_get (snd (HDF5Adapter.__getitem__ self key w)) l = heap_get w l)
  /\ warnings (snd (HDF5Adapter.__getitem__ self key w))
     = warnings w ++
       match h5py.getitem (HDF5Adapter._node self) key with
       | Ok (h5py.ObjDataset d) =>
           if h5py.is_object (h5py.ds_dtype d)
           then [HDF5Adapter.object_type_warning key] else []
       | _ => []
       end.
Proof.
  assert (Hgrow : forall w1 more,
            heap w1 = heap w ++ more ->
            (exists more', heap w1 = heap w ++ more')
            /\ (forall l, l < List.length (heap w) -> heap_get w1 l = heap_get w l)).
  { intros w1 more E. split; [now exists more|].
    intros l Hl. unfold heap_get. rewrite E. now apply nth_error_app_old. }
  destruct (h5py.getitem (HDF5Adapter._node self) key) as [[g|d]|e] eqn:Hv.
  - rewrite (getitem_group self key g w Hv). simpl.
    destruct (Hgrow w [] (eq_sym (app_nil_r _))) as [H1 H2].
    split; [exact H1|]. split; [exact H2|]. now rewrite app_nil_r.
  - destruct (h5py.is_object (h5py.ds_dtype d)) eqn:Hdt.
    + rewrite (getitem_object_dataset_any_key self key d w Hv Hdt). cbv zeta.
      assert (Hrep : forall x,
                snd (HDF5Adapter.repackaged x
                       (mkWorld (heap w)
                          (warnings w ++ [HDF5Adapter.object_type_warning key])))
                = mkWorld
                    (heap w ++ [[("attrs", VDict (S (List.length (heap w))))]; []])
                    (warnings w ++ [HDF5Adapter.object_type_warning key])).
      { intros x. exact (proj1 (repackaged_outcome x _)). }
      assert (Hmade :
                (exists more',
                    heap (mkWorld
                            (heap w ++ [[("attrs", VDict (S (List.length (heap w))))]; []])
                            (warnings w ++ [HDF5Adapter.object_type_warning key]))
                    = heap w ++ more')
                /\ (forall l, l < List.length (heap w) ->
                      heap_get
                        (mkWorld
                           (heap w ++ [[("attrs", VDict (S (List.length (heap w))))]; []])
                           (warnings w ++ [HDF5Adapter.object_type_warning key])) l
                      = heap_get w l)).
      { exact (Hgrow (mkWorld
                        (heap w ++ [[("attrs", VDict (S (List.length (heap w))))]; []])
                        (warnings w ++ [HDF5Adapter.object_type_warning key]))
                 _ eq_refl). }
      assert (Hwarned :
                (exists more',
                    heap (mkWorld (heap w)
                            (warnings w ++ [HDF5Adapter.object_type_warning key]))
                    = heap w ++ more')
                /\ (forall l, l < List.length (heap w) ->
                      heap_get
                        (mkWorld (heap w)
                           (warnings w ++ [HDF5Adapter.object_type_warning key])) l
                      = heap_get w l)).
      { exact (Hgrow (mkWorld (heap w)
                        (warnings w ++ [HDF5Adapter.object_type_warning key]))
                 [] (eq_sym (app_nil_r _))). }
      destruct Hmade as [M1 M2]. destruct Hwarned as [W1 W2].
      destruct (h5py.check_string_dtype (h5py.ds_dtype d)) as [info|];
        [|split; [exact W1|]; split; [exact W2 | reflexivity]].
      destruct (h5py.length info);
        [rewrite Hrep; split; [exact M1|]; split; [exact M2 | reflexivity]|].
      destruct (res_bind (h5py.file_getitem (HDF5Adapter._node self) key)
                  h5py.read_object);
        [|split; [exact W1|]; split; [exact W2 | reflexivity]].
      destruct (Nat.eqb (h5py.ds_size d) 1);
        rewrite Hrep; (split; [exact M1|]; split; [exact M2 | reflexivity]).
    + rewrite (getitem_plain_dataset self key d w Hv Hdt). simpl.
      destruct (Hgrow w [] (eq_sym (app_nil_r _))) as [H1 H2].
      split; [exact H1|]. split; [exact H2|]. now rewrite app_nil_r.
  - unfold HDF5Adapter.__getitem__, bind, lift. rewrite Hv. simpl.
    destruct (Hgrow w [] (eq_sym (app_nil_r _))) as [H1 H2].
    split; [exact H1|]. split; [exact H2|]. now rewrite app_nil_r.
Qed.

(** X7.  A variable-length string dataset (object dtype, string check
    with no length) that does not hold exactly one element, an empty one
    included, resolves to the empty placeholder: a leaf over a new
    zero-element array whose metadata is a new, empty map, with the
    warning emitted.  The key is one that does not start with the
    separator, so that the second lookup, through the file, finds the
    same dataset. *)
Theorem getitem_variable_length_strings (self : HDF5Adapter.t) (key : string)
    (d : h5py.Dataset) (info : h5py.string_info) (w : World) :
  h5py.absolute key = false ->
  h5py.getitem (HDF5Adapter._node self) key = Ok (h5py.ObjDataset d) ->
  h5py.is_object (h5py.ds_dtype d) = true ->
  h5py.check_string_dtype (h5py.ds_dtype d) = Some info ->
  h5py.length info = None ->
  h5py.ds_size d <> 1 ->
  exists adapter w' arr,
    HDF5Adapter.__getitem__ self key w = (Ok (HDF5Adapter.a_leaf adapter), w')
    /\ ArrayAdapter.array adapter = dask.from_array (dask.of_array arr)
    /\ ArrayWithAttrs.base arr = numpy.mk_ndarray [0] []
    /\ dask.size (ArrayAdapter.array adapter) = 0
    /\ ArrayAdapter.items w' (ArrayAdapter.metadata adapter) = Some []
    /\ warnings w' = warnings w ++ [HDF5Adapter.object_type_warning key].
Proof.
  intros Hrel H Hdt Hcheck Hlen Hsize.
  rewrite (getitem_object_dataset self key d w Hrel H Hdt).
  cbv zeta. rewrite Hcheck, Hlen.
  apply Nat.eqb_neq in Hsize. rewrite Hsize, repackaged_placeholder_run.
  eexists. eexists. eexists. split; [reflexivity|].
  cbn [ArrayAdapter.array ArrayAdapter.metadata ArrayWithAttrs.base heap warnings].
  repeat split.
  unfold ArrayAdapter.items, heap_get. cbn [heap]. apply nth_error_app_succ.
Qed.

Lemma getitem_variable_length_strings_witness :
  exists adapter w' arr,
    HDF5Adapter.__getitem__ Sample.root "names" Sample.start
    = (Ok (HDF5Adapter.a_leaf adapter), w')
    /\ ArrayAdapter.array adapter = dask.from_array (dask.of_array arr)
    /\ ArrayWithAttrs.base arr = numpy.mk_ndarray [0] []
    /\ dask.size (ArrayAdapter.array adapter) = 0
    /\ ArrayAdapter.items w' (ArrayAdapter.metadata adapter) = Some []
    /\ warnings w' = [HDF5Adapter.object_type_warning "names"].
Proof.
  refine (getitem_variable_length_strings Sample.root "names" Sample.names
            (h5py.mk_string_info "utf-8" None) Sample.start
            eq_refl eq_refl eq_refl eq_refl eq_refl _).
  simpl. discriminate.
Defined.

(** X8.  A scalar variable-length string dataset (shape [()], one
    element) resolves to a leaf over a new zero-dimensional array that
    holds the dataset's element, read eagerly; the leaf's metadata is a
    new, empty map (the dataset's own attributes are not carried over),
    and the warning is emitted. *)
Theorem getitem_single_variable_length_string (self : HDF5Adapter.t) (key : string)
    (d : h5py.Dataset) (info : h5py.string_info) (x : scalar) (w : World) :
  h5py.absolute key = false ->
  h5py.getitem (HDF5Adapter._node self) key = Ok (h5py.ObjDataset d) ->
  h5py.is_object (h5py.ds_dtype d) = true ->
  h5py.check_string_dtype (h5py.ds_dtype d) = Some info ->
  h5py.length info = None ->
  numpy.shape (h5py.ds_value d) = [] ->
  numpy.data (h5py.ds_value d) = [x] ->
  exists adapter w' arr,
    HDF5Adapter.__getitem__ self key w = (Ok (HDF5Adapter.a_leaf adapter), w')
    /\ ArrayAdapter.array adapter = dask.from_array (dask.of_array arr)
    /\ numpy.shape (ArrayWithAttrs.base arr) = []
    /\ numpy.data (ArrayWithAttrs.base arr) = [x]
    /\ dask.size (ArrayAdapter.array adapter) = 1
    /\ ArrayAdapter.items w' (ArrayAdapter.metadata adapter) = Some []
    /\ warnings w' = warnings w ++ [HDF5Adapter.object_type_warning key].
Proof.
  intros Hrel H Hdt Hcheck Hlen Hshape Hdata.
  exact (getitem_vlen_string_single self key d info x w Hrel H Hdt Hcheck Hlen
           Hshape Hdata).
Qed.

Lemma getitem_single_variable_length_string_witness :
  exists adapter w' arr,
    HDF5Adapter.__getitem__ (HDF5Adapter.mk Sample.notes None None) "author" Sample.start
    = (Ok (HDF5Adapter.a_leaf adapter), w')
    /\ ArrayAdapter.array adapter = dask.from_array (dask.of_array arr)
    /\ numpy.shape (ArrayWithAttrs.base arr) = []
    /\ numpy.data (ArrayWithAttrs.base arr) = [Str "B. Ravel"]
    /\ dask.size (ArrayAdapter.array adapter) = 1
    /\ ArrayAdapter.items w' (ArrayAdapter.metadata adapter) = Some []
    /\ warnings w' = [HDF5Adapter.object_type_warning "author"].
Proof.
  exact (getitem_single_variable_length_string (HDF5Adapter.mk Sample.notes None None)
           "author" Sample.author (h5py.mk_string_info "utf-8" None) (Str "B. Ravel")
           Sample.start eq_refl eq_refl eq_refl eq_refl eq_refl eq_refl eq_refl).
Defined.

(** X24.  A variable-length string dataset of one element that has a
    dimension (shape [(1,)], [(1, 1)], ...) does not resolve: its
    payload is read as an object array, over which the lazy view cannot
    be chunked.  The lookup raises [NotImplementedError], after the
    warning was emitted and the new array was made. *)
Theorem getitem_one_string_in_a_row_raises (self : HDF5Adapter.t) (key : string)
    (d : h5py.Dataset) (info : h5py.string_info) (w : World) :
  h5py.absolute key = false ->
  h5py.getitem (HDF5Adapter._node self) key = Ok (h5py.ObjDataset d) ->
  h5py.is_object (h5py.ds_dtype d) = true ->
  h5py.check_string_dtype (h5py.ds_dtype d) = Some info ->
  h5py.length info = None ->
  h5py.ds_size d = 1 ->
  numpy.shape (h5py.ds_value d) <> [] ->
  HDF5Adapter.__getitem__ self key w
  = (Raise NotImplementedError,
     mkWorld (heap w ++ [[("attrs", VDict (S (List.length (heap w))))]; []])
       (warnings w ++ [HDF5Adapter.object_type_warning key])).
Proof.
  intros Hrel H Hdt Hcheck Hlen Hsize Hshape.
  rewrite (getitem_object_dataset self key d w Hrel H Hdt).
  cbv zeta. rewrite Hcheck, Hlen, Hsize. cbn [Nat.eqb].
  rewrite repackaged_run. cbn [heap warnings].
  assert (E : numpy.hasobject (numpy.array (h5py.read d))
              && negb (Nat.eqb (numpy.ndim (numpy.array (h5py.read d))) 0) = true).
  { unfold h5py.read.
    destruct (numpy.shape (h5py.ds_value d)) as [|n dims] eqn:Es; [contradiction|].
    unfold numpy.array, numpy.asarray, numpy.ndim.
    cbn [numpy.hasobject numpy.shape List.length Nat.eqb negb]. now rewrite Hdt. }
  now rewrite E.
Qed.

Lemma getitem_one_string_in_a_row_raises_witness :
  HDF5Adapter.__getitem__ Sample.root "title" Sample.start
  = (Raise NotImplementedError,
     mkWorld [[("attrs", VDict 1)]; []] [HDF5Adapter.object_type_warning "title"]).
Proof.
  refine (getitem_one_string_in_a_row_raises Sample.root "title" Sample.title
            (h5py.mk_string_info "utf-8" None) Sample.start
            eq_refl eq_refl eq_refl eq_refl eq_refl eq_refl _).
  simpl. discriminate.
Defined.

(** X25.  A key that starts with the separator is looked up twice, and
    not the same way: the node follows it from the root of the file, the
    second lookup, through the file, follows it from the node.  When it
    resolves to a variable-length string dataset through the node and to
    nothing below the node, the lookup raises [KeyError] after the
    warning, and the membership test answers [False] for a key that
    resolves. *)
Theorem getitem_rooted_key_read_below_node (self : HDF5Adapter.t) (key : string)
    (d : h5py.Dataset) (info : h5py.string_info) (w : World) :
  h5py.getitem (HDF5Adapter._node self) key = Ok (h5py.ObjDataset d) ->
  h5py.is_object (h5py.ds_dtype d) = true ->
  h5py.check_string_dtype (h5py.ds_dtype d) = Some info ->
  h5py.length info = None ->
  h5py.file_getitem (HDF5Adapter._node self) key = Raise KeyError ->
  HDF5Adapter.__getitem__ self key w
  = (Raise KeyError,
     mkWorld (heap w) (warnings w ++ [HDF5Adapter.object_type_warning key]))
  /\ HDF5Adapter.__contains__ self key w
     = (Ok false,
        mkWorld (heap w) (warnings w ++ [HDF5Adapter.object_type_warning key])).
Proof.
  intros H Hdt Hcheck Hlen Hfile.
  assert (E : HDF5Adapter.__getitem__ self key w
              = (Raise KeyError,
                 mkWorld (heap w) (warnings w ++ [HDF5Adapter.object_type_warning key]))).
  { rewrite (getitem_object_dataset_any_key self key d w H Hdt).
    cbv zeta. now rewrite Hcheck, Hlen, Hfile. }
  split; [exact E|]. unfold HDF5Adapter.__contains__. now rewrite E.
Qed.

Lemma getitem_rooted_key_read_below_node_witness :
  h5py.getitem Sample.notes "/notes/names" = Ok (h5py.ObjDataset Sample.names)
  /\ HDF5Adapter.__getitem__ (HDF5Adapter.mk Sample.notes None None) "/notes/names"
       Sample.start
     = (Raise KeyError, mkWorld [] [HDF5Adapter.object_type_warning "/notes/names"])
  /\ HDF5Adapter.__contains__ (HDF5Adapter.mk Sample.notes None None) "/notes/names"
       Sample.start
     = (Ok false, mkWorld [] [HDF5Adapter.object_type_warning "/notes/names"]).
Proof.
  split; [reflexivity|].
  exact (getitem_rooted_key_read_below_node (HDF5Adapter.mk Sample.notes None None)
           "/notes/names" Sample.names (h5py.mk_string_info "utf-8" None) Sample.start
           eq_refl eq_refl eq_refl eq_refl eq_refl).
Defined.

(** X9.  Nothing is cached or shared between lookups of a
    variable-length string leaf that resolves (one that is a scalar, or
    does not hold exactly one element): looking the same key up twice
    gives two leaves whose metadata are two different dict objects, both
    empty after the second lookup, over two different array instances. *)
Theorem getitem_twice_shares_nothing (self : HDF5Adapter.t) (key : string)
    (d : h5py.Dataset) (info : h5py.string_info) (w : World) :
  h5py.absolute key = false ->
  h5py.getitem (HDF5Adapter._node self) key = Ok (h5py.ObjDataset d) ->
  h5py.is_object (h5py.ds_dtype d) = true ->
  h5py.check_string_dtype (h5py.ds_dtype d) = Some info ->
  h5py.ds_size d <> 1 \/ numpy.shape (h5py.ds_value d) = [] ->
  exists first w1 second w2 l1 l2,
    HDF5Adapter.__getitem__ self key w = (Ok (HDF5Adapter.a_leaf first), w1)
    /\ HDF5Adapter.__getitem__ self key w1 = (Ok (HDF5Adapter.a_leaf second), w2)
    /\ ArrayAdapter.metadata first = VDict l1
    /\ ArrayAdapter.metadata second = VDict l2
    /\ l1 <> l2
    /\ heap_get w2 l1 = Some []
    /\ heap_get w2 l2 = Some []
    /\ ArrayAdapter.array first <> ArrayAdapter.array second.
Proof.
  intros Hrel H Hdt Hcheck Hresolves.
  assert (Hrun : forall w0, exists x,
            HDF5Adapter.__getitem__ self key w0
            = HDF5Adapter.repackaged x
                (mkWorld (heap w0) (warnings w0 ++ [HDF5Adapter.object_type_warning key]))
            /\ numpy.hasobject (numpy.array x)
               && negb (Nat.eqb (numpy.ndim (numpy.array x)) 0) = false).
  { intros w0. rewrite (getitem_object_dataset self key d w0 Hrel H Hdt). cbv zeta.
    rewrite Hcheck.
    destruct (h5py.length info);
      [eexists; split; reflexivity|].
    destruct (Nat.eqb (h5py.ds_size d) 1) eqn:Esize;
      [|eexists; split; reflexivity].
    apply Nat.eqb_eq in Esize.
    destruct Hresolves as [Hsize|Hshape]; [contradiction|].
    eexists. split; [reflexivity|].
    unfold h5py.read. rewrite Hshape.
    destruct (numpy.data (h5py.ds_value d)) as [|x [|y elements]];
      apply andb_false_r. }
  destruct (Hrun w) as [x1 [E1 Hx1]]. rewrite repackaged_run, Hx1 in E1.
  cbn [heap warnings] in E1.
  match type of E1 with _ = (_, ?w1) => destruct (Hrun w1) as [x2 [E2 Hx2]] end.
  rewrite repackaged_run, Hx2 in E2. cbn [heap warnings] in E2.
  eexists. eexists. eexists. eexists. eexists. eexists.
  split; [exact E1|]. split; [exact E2|].
  cbn [ArrayAdapter.metadata ArrayAdapter.array].
  split; [reflexivity|]. split; [reflexivity|].
  rewrite length_app. cbn [List.length].
  split; [lia|].
  unfold heap_get. cbn [heap].
  split.
  - rewrite nth_error_app_old by (rewrite length_app; cbn [List.length]; lia).
    apply nth_error_app_succ.
  - replace (S (List.length (heap w) + 2))
      with (S (List.length (heap w ++ [[("attrs", VDict (S (List.length (heap w))))]; []])))
      by (rewrite length_app; reflexivity).
    split; [apply nth_error_app_succ|].
    intros E. inversion E. rewrite length_app in *. cbn [List.length] in *. lia.
Qed.

Lemma getitem_twice_shares_nothing_witness :
  exists first w1 second w2 l1 l2,
    HDF5Adapter.__getitem__ (HDF5Adapter.mk Sample.notes None None) "author" Sample.start
    = (Ok (HDF5Adapter.a_leaf first), w1)
    /\ HDF5Adapter.__getitem__ (HDF5Adapter.mk Sample.notes None None) "author" w1
       = (Ok (HDF5Adapter.a_leaf second), w2)
    /\ ArrayAdapter.metadata first = VDict l1
    /\ ArrayAdapter.metadata second = VDict l2
    /\ l1 <> l2
    /\ heap_get w2 l1 = Some []
    /\ heap_get w2 l2 = Some []
    /\ ArrayAdapter.array first <> ArrayAdapter.array second.
Proof.
  exact (getitem_twice_shares_nothing (HDF5Adapter.mk Sample.notes None None) "author"
           Sample.author (h5py.mk_string_info "utf-8" None) Sample.start
           eq_refl eq_refl eq_refl eq_refl (or_intror eq_refl)).
Defined.



(** ** ArrayWithAttrs: failures, chains and fresh instances *)

Lemma nth_error_app_plus {A} (l r : list A) (k : nat) :
  nth_error (l ++ r) (List.length l + k) = nth_error r k.
Proof. induction l as [|x l IH]; simpl; [reflexivity | exact IH]. Qed.

Lemma nth_error_update_nth_same {A} (f : A -> A) (l : list A) (n : nat) :
  nth_error (update_nth n f l) n = option_map f (nth_error l n).
Proof.
  revert n. induction l as [|x l IH]; intros [|n]; simpl; try reflexivity. apply IH.
Qed.

Lemma nth_error_update_nth_other {A} (f : A -> A) (l : list A) (n m : nat) :
  m <> n -> nth_error (update_nth n f l) m = nth_error l m.
Proof.
  revert n m. induction l as [|x l IH]; intros [|n] [|m] H; simpl; try reflexivity.
  - contradiction.
  - apply IH. congruence.
Qed.

Lemma dict_get_set_same {V} (k : string) (v : V) (d : list (string * V)) :
  dict_get k (dict_set k v d) = Some v.
Proof.
  induction d as [|[k' v'] d IH]; simpl.
  - now rewrite String.eqb_refl.
  - destruct (String.eqb k k') eqn:E; simpl; rewrite E; [reflexivity | exact IH].
Qed.

Lemma array_ufunc_run
    (self : ArrayWithAttrs.t) (ufunc : numpy.ufunc) (method : numpy.method)
    (inputs : list ArrayWithAttrs.operand) (kwargs : numpy.Kwargs)
    (args : list numpy.ndarray) (result : numpy.object) (w : World) :
  res_mapM ArrayWithAttrs.view_ndarray inputs = Ok args ->
  ArrayWithAttrs.f ufunc method args kwargs = Ok result ->
  ArrayWithAttrs.__array_ufunc__ self ufunc method inputs kwargs w
  = (Ok (ArrayWithAttrs.mk (numpy.asarray result) (ArrayWithAttrs.__dict__ self)),
     mkWorld (heap w ++ [[("attrs", VDict (S (List.length (heap w))))]; []]) (warnings w)).
Proof.
  intros Hargs Hkernel. unfold ArrayWithAttrs.__array_ufunc__, bind, lift.
  now rewrite Hargs, Hkernel, ArrayWithAttrs_new_run.
Qed.

Lemma attrs_of_grown (w w' : World) (more : list PyDict)
    (a a' : ArrayWithAttrs.t) (m : PyDict) :
  heap w' = heap w ++ more ->
  ArrayWithAttrs.__dict__ a' = ArrayWithAttrs.__dict__ a ->
  ArrayWithAttrs.attrs_of w a = Some m ->
  ArrayWithAttrs.attrs_of w' a' = Some m.
Proof.
  intros Hheap E.
  assert (Hget : forall l d, heap_get w l = Some d -> heap_get w' l = Some d).
  { intros l d Hd. unfold heap_get in *. rewrite Hheap.
    rewrite nth_error_app_old; [exact Hd|]. apply nth_error_Some. congruence. }
  unfold ArrayWithAttrs.attrs_of. rewrite E.
  destruct (heap_get w (ArrayWithAttrs.__dict__ a)) as [d|] eqn:Hd; [|discriminate].
  rewrite (Hget _ d Hd).
  destruct (dict_get "attrs" d) as [[x|l|s]|]; try discriminate.
  intros Hm. exact (Hget _ m Hm).
Qed.

(** X11.  A ufunc call on an [ArrayWithAttrs] fails without touching the
    interpreter in two cases: an operand that has no [view] (a Python
    number or list, as in [a + 1]) raises [AttributeError] before the
    kernel runs, and an exception of the kernel is passed on as it is. *)
Theorem array_ufunc_failures
    (self : ArrayWithAttrs.t) (ufunc : numpy.ufunc) (method : numpy.method)
    (kwargs : numpy.Kwargs) (w : World) :
  (forall before x after,
      (forall i, In i before -> exists a, ArrayWithAttrs.view_ndarray i = Ok a) ->
      ArrayWithAttrs.__array_ufunc__ self ufunc method
        (before ++ ArrayWithAttrs.a_python_value x :: after) kwargs w
      = (Raise AttributeError, w))
  /\ (forall inputs args e,
        res_mapM ArrayWithAttrs.view_ndarray inputs = Ok args ->
        ArrayWithAttrs.f ufunc method args kwargs = Raise e ->
        ArrayWithAttrs.__array_ufunc__ self ufunc method inputs kwargs w = (Raise e, w)).
Proof.
  split.
  - intros before x after H. now apply array_ufunc_python_operand.
  - intros inputs args e Hargs Hkernel.
    unfold ArrayWithAttrs.__array_ufunc__, bind, lift. now rewrite Hargs, Hkernel.
Qed.

(** [a + 1] and [numpy.add(a, b)] with [b] of another length. *)
Lemma array_ufunc_failures_witness :
  ArrayWithAttrs.__array_ufunc__ Sample.spectrum_array Sample.add numpy.m_call
    [ArrayWithAttrs.an_ArrayWithAttrs Sample.spectrum_array;
     ArrayWithAttrs.a_python_value (numpy.Scalar (Int 1))] [] Sample.lab
  = (Raise AttributeError, Sample.lab)
  /\ ArrayWithAttrs.__array_ufunc__ Sample.spectrum_array Sample.add numpy.m_call
       [ArrayWithAttrs.an_ArrayWithAttrs Sample.spectrum_array;
        ArrayWithAttrs.an_ndarray (numpy.mk_ndarray [2] [Int 1; Int 2])] [] Sample.lab
     = (Raise ValueError, Sample.lab).
Proof.
  destruct (array_ufunc_failures Sample.spectrum_array Sample.add numpy.m_call []
              Sample.lab) as [Hview Hkernel].
  split.
  - apply (Hview [ArrayWithAttrs.an_ArrayWithAttrs Sample.spectrum_array]
             (numpy.Scalar (Int 1)) []).
    intros i [<-|[]]. eexists. reflexivity.
  - eapply Hkernel; reflexivity.
Defined.



(** X12.  Metadata survives a chain of ufunc calls: when the result of
    one call is the receiver and first operand of the next, the final
    result still has the instance dictionary of the first receiver, and
    reads the metadata map that the first receiver had. *)
Theorem array_ufunc_chain_carries_metadata
    (self : ArrayWithAttrs.t)
    (ufunc1 : numpy.ufunc) (method1 : numpy.method)
    (inputs1 : list ArrayWithAttrs.operand) (kwargs1 : numpy.Kwargs)
    (args1 : list numpy.ndarray) (result1 : numpy.object)
    (ufunc2 : numpy.ufunc) (method2 : numpy.method)
    (others2 : list ArrayWithAttrs.operand) (kwargs2 : numpy.Kwargs)
    (args2 : list numpy.ndarray) (result2 : numpy.object) (w : World) :
  res_mapM ArrayWithAttrs.view_ndarray inputs1 = Ok args1 ->
  ArrayWithAttrs.f ufunc1 method1 args1 kwargs1 = Ok result1 ->
  res_mapM ArrayWithAttrs.view_ndarray others2 = Ok args2 ->
  ArrayWithAttrs.f ufunc2 method2 (numpy.asarray result1 :: args2) kwargs2 = Ok result2 ->
  exists middle w1 output w2,
    ArrayWithAttrs.__array_ufunc__ self ufunc1 method1 inputs1 kwargs1 w = (Ok middle, w1)
    /\ ArrayWithAttrs.__array_ufunc__ middle ufunc2 method2
         (ArrayWithAttrs.an_ArrayWithAttrs middle :: others2) kwargs2 w1
       = (Ok output, w2)
    /\ ArrayWithAttrs.base output = numpy.asarray result2
    /\ ArrayWithAttrs.__dict__ output = ArrayWithAttrs.__dict__ self
    /\ (forall m, ArrayWithAttrs.attrs_of w self = Some m ->
                  ArrayWithAttrs.attrs_of w2 output = Some m).
Proof.
  intros Hargs1 Hk1 Hargs2 Hk2.
  eexists. eexists. eexists. eexists.
  split; [apply (array_ufunc_run self _ _ _ _ args1 result1 w Hargs1 Hk1)|].
  split.
  - apply (array_ufunc_run _ _ _ _ _ (numpy.asarray result1 :: args2) result2).
    + simpl. now rewrite Hargs2.
    + exact Hk2.
  - cbn [ArrayWithAttrs.base ArrayWithAttrs.__dict__ heap warnings].
    split; [reflexivity|]. split; [reflexivity|].
    intros m Hm. eapply (attrs_of_grown w _ _ self); [|reflexivity|exact Hm].
    cbn [heap]. rewrite <- app_assoc. reflexivity.
Qed.

(** [numpy.add.reduce(numpy.add.accumulate(a))] keeps the unit of [a]. *)
Lemma array_ufunc_chain_carries_metadata_witness :
  exists middle w1 output w2,
    ArrayWithAttrs.__array_ufunc__ Sample.spectrum_array Sample.add numpy.m_accumulate
      [ArrayWithAttrs.an_ArrayWithAttrs Sample.spectrum_array] [] Sample.lab
    = (Ok middle, w1)
    /\ ArrayWithAttrs.__array_ufunc__ middle Sample.add numpy.m_reduce
         [ArrayWithAttrs.an_ArrayWithAttrs middle] [] w1
       = (Ok output, w2)
    /\ ArrayWithAttrs.base output = numpy.mk_ndarray [] [Int 10]
    /\ ArrayWithAttrs.attrs_of w2 output = Some [("unit", VScalar (Str "eV"))].
Proof.
  destruct (array_ufunc_chain_carries_metadata Sample.spectrum_array
              Sample.add numpy.m_accumulate
              [ArrayWithAttrs.an_ArrayWithAttrs Sample.spectrum_array] []
              [numpy.mk_ndarray [3] [Int 1; Int 2; Int 3]]
              (numpy.Array (numpy.mk_ndarray [3] [Int 1; Int 3; Int 6]))
              Sample.add numpy.m_reduce [] [] [] (numpy.Scalar (Int 10)) Sample.lab
              eq_refl eq_refl eq_refl eq_refl)
    as (middle & w1 & output & w2 & H1 & H2 & Hbase & _ & Hattrs).
  exists middle, w1, output, w2.
  split; [exact H1|]. split; [exact H2|]. split; [exact Hbase|].
  apply Hattrs. reflexivity.
Defined.

(** X13.  Two arrays constructed one after the other share nothing: they
    have different instance dictionaries, their [attrs] are different
    dict objects, both empty, and what was allocated before is
    untouched. *)
Theorem new_arrays_share_nothing (x y : numpy.object) (w : World) :
  exists a w1 b w2 la lb,
    ArrayWithAttrs.__new__ x w = (Ok a, w1)
    /\ ArrayWithAttrs.__new__ y w1 = (Ok b, w2)
    /\ ArrayWithAttrs.base a = numpy.asarray x
    /\ ArrayWithAttrs.base b = numpy.asarray y
    /\ ArrayWithAttrs.__dict__ a <> ArrayWithAttrs.__dict__ b
    /\ ArrayWithAttrs.getattr a "attrs" w2 = (Ok (VDict la), w2)
    /\ ArrayWithAttrs.getattr b "attrs" w2 = (Ok (VDict lb), w2)
    /\ la <> lb
    /\ heap_get w2 la = Some []
    /\ heap_get w2 lb = Some []
    /\ (forall l, l < List.length (heap w) -> heap_get w2 l = heap_get w l).
Proof.
  eexists. eexists. eexists. eexists. eexists. eexists.
  split; [apply ArrayWithAttrs_new_run|].
  split; [apply ArrayWithAttrs_new_run|].
  cbn [ArrayWithAttrs.base ArrayWithAttrs.__dict__ heap warnings].
  split; [reflexivity|]. split; [reflexivity|].
  rewrite length_app. cbn [List.length].
  split; [lia|].
  unfold ArrayWithAttrs.getattr, heap_get.
  cbn [ArrayWithAttrs.__dict__ heap].
  rewrite (nth_error_app_old _ _ (List.length (heap w)))
    by (rewrite length_app; cbn [List.length]; lia).
  rewrite nth_error_app_length.
  replace (List.length (heap w) + 2)
    with (List.length (heap w ++ [[("attrs", VDict (S (List.length (heap w))))]; []]))
    by (rewrite length_app; reflexivity).
  rewrite nth_error_app_length.
  cbn [dict_get String.eqb Ascii.eqb Bool.eqb].
  split; [reflexivity|]. split; [reflexivity|].
  split; [rewrite length_app; cbn [List.length]; lia|].
  split.
  - rewrite nth_error_app_old by (rewrite length_app; cbn [List.length]; lia).
    apply nth_error_app_succ.
  - split; [apply nth_error_app_succ|].
    intros l Hl. rewrite <- app_assoc. now apply nth_error_app_old.
Qed.

(** X14.  [__array_finalize__] with [obj] given does not keep earlier
    metadata: whatever the instance dictionary held, [attrs] is rebound
    to a new, empty dict, while every other dict object, the one [attrs]
    referred to before included, stays as it was.  With [obj] absent it
    does nothing. *)
Theorem array_finalize_rebinds_attrs
    (self : ArrayWithAttrs.t) (obj : numpy.ndarray) (w : World) :
  ArrayWithAttrs.__dict__ self < List.length (heap w) ->
  exists w',
    ArrayWithAttrs.__array_finalize__ self (Some obj) w = (Ok tt, w')
    /\ ArrayWithAttrs.getattr self "attrs" w' = (Ok (VDict (List.length (heap w))), w')
    /\ ArrayWithAttrs.attrs_of w' self = Some []
    /\ (forall l, l < List.length (heap w) -> l <> ArrayWithAttrs.__dict__ self ->
          heap_get w' l = heap_get w l)
    /\ ArrayWithAttrs.__array_finalize__ self None w = (Ok tt, w).
Proof.
  intros Hvalid.
  unfold ArrayWithAttrs.__array_finalize__, bind, alloc, heap_update, ret.
  cbn [heap warnings]. eexists. split; [reflexivity|].
  unfold ArrayWithAttrs.getattr, ArrayWithAttrs.attrs_of, heap_get. cbn [heap].
  rewrite nth_error_update_nth_same.
  rewrite nth_error_app_old by exact Hvalid.
  match goal with
  | |- context [option_map _ ?c] => destruct c as [d|] eqn:E
  end.
  - cbn [option_map dict_update fold_left fst snd].
    rewrite dict_get_set_same.
    split; [reflexivity|]. split.
    + rewrite nth_error_update_nth_other.
      * apply nth_error_app_length.
      * intros Heq. rewrite <- Heq in Hvalid. exact (Nat.lt_irrefl _ Hvalid).
    + split; [|reflexivity].
      intros l Hl Hne. rewrite nth_error_update_nth_other by exact Hne.
      now apply nth_error_app_old.
  - apply nth_error_None in E. exfalso.
    exact (Nat.lt_irrefl _ (Nat.lt_le_trans _ _ _ Hvalid E)).
Qed.

(** Finalizing the sample array again drops its unit. *)
Lemma array_finalize_rebinds_attrs_witness :
  ArrayWithAttrs.attrs_of Sample.lab Sample.spectrum_array
  = Some [("unit", VScalar (Str "eV"))]
  /\ exists w',
       ArrayWithAttrs.__array_finalize__ Sample.spectrum_array
         (Some (numpy.asarray Sample.spectrum)) Sample.lab = (Ok tt, w')
       /\ ArrayWithAttrs.attrs_of w' Sample.spectrum_array = Some []
       /\ heap_get w' 1 = Some [("unit", VScalar (Str "eV"))].
Proof.
  split; [reflexivity|].
  destruct (array_finalize_rebinds_attrs Sample.spectrum_array
              (numpy.asarray Sample.spectrum) Sample.lab)
    as (w' & Hrun & _ & Hattrs & Hkeep & _).
  - simpl. lia.
  - exists w'. split; [exact Hrun|]. split; [exact Hattrs|].
    rewrite Hkeep; [reflexivity | simpl; lia | simpl; discriminate].
Defined.

(** ** The indexers, forward *)

Lemma firstn_then_firstn {A} (x y : nat) (t : list A) :
  firstn x t ++ firstn y (skipn x t) = firstn (x + y) t.
Proof.
  revert t. induction x as [|x IH]; intros t; [reflexivity|].
  destruct t as [|h t]; simpl.
  - now rewrite firstn_nil.
  - now rewrite IH.
Qed.

Lemma skipn_then_skipn {A} (x y : nat) (t : list A) :
  skipn y (skipn x t) = skipn (x + y) t.
Proof.
  revert t. induction x as [|x IH]; intros t; [reflexivity|].
  destruct t as [|h t]; simpl; [now rewrite skipn_nil | apply IH].
Qed.

Lemma In_firstn {A} (x : A) (n : nat) (l : list A) : In x (firstn n l) -> In x l.
Proof.
  intros H. rewrite <- (firstn_skipn n l). apply in_or_app. now left.
Qed.

Lemma In_skipn {A} (x : A) (n : nat) (l : list A) : In x (skipn n l) -> In x l.
Proof.
  intros H. rewrite <- (firstn_skipn n l). apply in_or_app. now right.
Qed.

Lemma In_list_slice {A} (x : A) (l : list A) (start stop : option Z) :
  In x (list_slice l start stop) -> In x l.
Proof. unfold list_slice. intros H. eapply In_skipn, In_firstn, H. Qed.

Lemma list_slice_nonneg {A} (l : list A) (a b : Z) :
  (0 <= a)%Z -> (0 <= b)%Z ->
  list_slice l (Some a) (Some b)
  = firstn (Z.to_nat (Z.min b (Z.of_nat (List.length l))
                      - Z.min a (Z.of_nat (List.length l))))
      (skipn (Z.to_nat (Z.min a (Z.of_nat (List.length l)))) l).
Proof.
  intros Ha Hb. unfold list_slice, slice_bound.
  destruct (Z.ltb_spec a 0); [lia|]. destruct (Z.ltb_spec b 0); [lia|]. reflexivity.
Qed.

Lemma list_slice_whole {A} (l : list A) : list_slice l None None = l.
Proof.
  unfold list_slice, slice_bound. rewrite Z.sub_0_r, Nat2Z.id. simpl. apply firstn_all.
Qed.

Lemma list_slice_pages {A} (l : list A) (a b c : Z) :
  (0 <= a <= b)%Z -> (b <= c)%Z ->
  list_slice l (Some a) (Some b) ++ list_slice l (Some b) (Some c)
  = list_slice l (Some a) (Some c).
Proof.
  intros Hab Hbc. rewrite !list_slice_nonneg by lia.
  set (n := Z.of_nat (List.length l)).
  replace (skipn (Z.to_nat (Z.min b n)) l)
    with (skipn (Z.to_nat (Z.min b n - Z.min a n)) (skipn (Z.to_nat (Z.min a n)) l))
    by (rewrite skipn_then_skipn; f_equal; lia).
  rewrite firstn_then_firstn. f_equal. lia.
Qed.

Lemma list_slice_length {A} (l : list A) (a b : Z) :
  (0 <= a <= b)%Z ->
  Z.of_nat (List.length (list_slice l (Some a) (Some b)))
  = (Z.min b (Z.of_nat (List.length l)) - Z.min a (Z.of_nat (List.length l)))%Z.
Proof.
  intros Hab. rewrite list_slice_nonneg by lia.
  rewrite length_firstn, length_skipn. lia.
Qed.

Lemma list_slice_one {A} (l : list A) (i : Z) (x : A) :
  (0 <= i)%Z -> nth_error l (Z.to_nat i) = Some x ->
  list_slice l (Some i) (Some (i + 1)%Z) = [x].
Proof.
  intros Hi Hx. rewrite list_slice_nonneg by lia.
  assert (Hlt : Z.to_nat i < List.length l) by (apply nth_error_Some; congruence).
  replace (Z.to_nat (Z.min (i + 1) (Z.of_nat (List.length l))
                     - Z.min i (Z.of_nat (List.length l)))) with 1 by lia.
  replace (Z.to_nat (Z.min i (Z.of_nat (List.length l)))) with (Z.to_nat i) by lia.
  rewrite <- (Nat.add_0_r (Z.to_nat i)) in Hx. rewrite <- nth_error_skipn in Hx.
  destruct (skipn (Z.to_nat i) l) as [|y r]; simpl in *; congruence.
Qed.

Lemma list_slice_map {A B} (g : A -> B) (l : list A) (start stop : option Z) :
  map g (list_slice l start stop) = list_slice (map g l) start stop.
Proof.
  unfold list_slice. now rewrite length_map, skipn_map, firstn_map.
Qed.

(** X15.  Forward, the keys slice over [0, n) of a node with [n]
    children, like the slice with both bounds absent, is the full list of
    names in the container's order, and it has [n] entries. *)
Theorem keys_slice_forward_whole (self : HDF5Adapter.t) (direction : Z) :
  (0 <= direction)%Z ->
  HDF5Adapter._keys_slice self (Some 0%Z) (Some (Z.of_nat (HDF5Adapter.__len__ self)))
    direction
  = Ok (HDF5Adapter.__iter__ self)
  /\ HDF5Adapter._keys_slice self None None direction = Ok (HDF5Adapter.__iter__ self)
  /\ List.length (HDF5Adapter.__iter__ self) = HDF5Adapter.__len__ self.
Proof.
  intros H. rewrite !keys_slice_forward by exact H.
  rewrite <- len_iter, list_slice_all, list_slice_whole. repeat split.
Qed.

Lemma keys_slice_forward_whole_witness :
  HDF5Adapter._keys_slice Sample.root (Some 0%Z) (Some 7%Z) 1
  = Ok ["entry"; "counts"; "names"; "title"; "links"; "origin"; "labels"]
  /\ HDF5Adapter._keys_slice Sample.root None None 1
     = Ok ["entry"; "counts"; "names"; "title"; "links"; "origin"; "labels"]
  /\ 7 = 7.
Proof.
  apply (keys_slice_forward_whole Sample.root 1). lia.
Defined.

(** X16.  Forward pages of keys tile the range: for bounds
    [0 <= a <= b <= c], the slice [a, b) followed by the slice [b, c) is
    the slice [a, c); no name is lost or repeated between pages. *)
Theorem keys_slice_forward_pages (self : HDF5Adapter.t) (a b c direction : Z) :
  (0 <= direction)%Z -> (0 <= a <= b)%Z -> (b <= c)%Z ->
  exists p q r,
    HDF5Adapter._keys_slice self (Some a) (Some b) direction = Ok p
    /\ HDF5Adapter._keys_slice self (Some b) (Some c) direction = Ok q
    /\ HDF5Adapter._keys_slice self (Some a) (Some c) direction = Ok r
    /\ p ++ q = r.
Proof.
  intros H Hab Hbc. rewrite !keys_slice_forward by exact H.
  eexists. eexists. eexists. repeat split. now apply list_slice_pages.
Qed.

Lemma keys_slice_forward_pages_witness :
  exists p q r,
    HDF5Adapter._keys_slice Sample.root (Some 0%Z) (Some 3%Z) 1 = Ok p
    /\ HDF5Adapter._keys_slice Sample.root (Some 3%Z) (Some 10%Z) 1 = Ok q
    /\ HDF5Adapter._keys_slice Sample.root (Some 0%Z) (Some 10%Z) 1 = Ok r
    /\ p ++ q = r.
Proof.
  apply (keys_slice_forward_pages Sample.root 0 3 10 1); lia.
Defined.

(** X17.  Forward, a keys slice with bounds [0 <= a <= b] never raises:
    bounds past the end are clipped to the number of children [n], the
    slice has [min b n - min a n] names, and every one of them is a name
    that iteration yields. *)
Theorem keys_slice_forward_clipped (self : HDF5Adapter.t) (a b direction : Z) :
  (0 <= direction)%Z -> (0 <= a <= b)%Z ->
  exists p,
    HDF5Adapter._keys_slice self (Some a) (Some b) direction = Ok p
    /\ Z.of_nat (List.length p)
       = (Z.min b (Z.of_nat (HDF5Adapter.__len__ self))
          - Z.min a (Z.of_nat (HDF5Adapter.__len__ self)))%Z
    /\ (forall key, In key p -> In key (HDF5Adapter.__iter__ self)).
Proof.
  intros H Hab. rewrite keys_slice_forward by exact H. eexists. split; [reflexivity|].
  split.
  - rewrite <- len_iter. now apply list_slice_length.
  - intros key. apply In_list_slice.
Qed.

Lemma keys_slice_forward_clipped_witness :
  exists p,
    HDF5Adapter._keys_slice Sample.root (Some 5%Z) (Some 100%Z) 1 = Ok p
    /\ Z.of_nat (List.length p) = 2%Z
    /\ (forall key, In key p -> In key (HDF5Adapter.__iter__ Sample.root)).
Proof.
  apply (keys_slice_forward_clipped Sample.root 5 100 1); lia.
Defined.

(** X18.  Forward, an index names the key at that position, counting from
    the end when negative, and raises [IndexError] outside [-n, n). *)
Theorem item_by_index_forward_ranges (self : HDF5Adapter.t) (index direction : Z) :
  (0 <= direction)%Z ->
  let n := Z.of_nat (HDF5Adapter.__len__ self) in
  ((0 <= index < n)%Z ->
     exists key, HDF5Adapter._item_by_index self index direction = Ok key
                 /\ nth_error (HDF5Adapter.__iter__ self) (Z.to_nat index) = Some key)
  /\ ((- n <= index < 0)%Z ->
     exists key, HDF5Adapter._item_by_index self index direction = Ok key
                 /\ nth_error (HDF5Adapter.__iter__ self) (Z.to_nat (index + n)) = Some key)
  /\ ((index < - n \/ n <= index)%Z ->
     HDF5Adapter._item_by_index self index direction = Raise IndexError).
Proof. exact (item_by_index_forward self index direction). Qed.

Lemma item_by_index_forward_ranges_witness :
  HDF5Adapter._item_by_index Sample.root 1 1 = Ok "counts"
  /\ HDF5Adapter._item_by_index Sample.root (-1) 1 = Ok "labels"
  /\ HDF5Adapter._item_by_index Sample.root 7 1 = Raise IndexError
  /\ HDF5Adapter._item_by_index Sample.root (-8) 1 = Raise IndexError.
Proof.
  destruct (item_by_index_forward_ranges Sample.root 1 1 ltac:(lia)) as [H1 _].
  destruct (item_by_index_forward_ranges Sample.root (-1) 1 ltac:(lia)) as [_ [H2 _]].
  destruct (item_by_index_forward_ranges Sample.root 7 1 ltac:(lia)) as [_ [_ H3]].
  destruct (item_by_index_forward_ranges Sample.root (-8) 1 ltac:(lia)) as [_ [_ H4]].
  destruct (H1 ltac:(simpl; lia)) as [k1 [E1 N1]].
  destruct (H2 ltac:(simpl; lia)) as [k2 [E2 N2]].
  simpl in N1, N2. inversion N1; inversion N2; subst.
  split; [exact E1|]. split; [exact E2|].
  split; [apply H3; simpl; lia | apply H4; simpl; lia].
Defined.

(** X19.  Forward and in bounds, the single-key lookup and the keys
    slice agree: the key at position [index] is the one element of the
    slice [index, index + 1). *)
Theorem item_by_index_agrees_with_keys_slice
    (self : HDF5Adapter.t) (index direction : Z) :
  (0 <= direction)%Z ->
  (0 <= index < Z.of_nat (HDF5Adapter.__len__ self))%Z ->
  exists key,
    HDF5Adapter._item_by_index self index direction = Ok key
    /\ HDF5Adapter._keys_slice self (Some index) (Some (index + 1)%Z) direction = Ok [key].
Proof.
  intros H Hi.
  destruct (proj1 (item_by_index_forward self index direction H) Hi)
    as [key [Hkey Hnth]].
  exists key. split; [exact Hkey|].
  rewrite keys_slice_forward by exact H. f_equal.
  apply list_slice_one; [lia | exact Hnth].
Qed.

Lemma item_by_index_agrees_with_keys_slice_witness :
  exists key,
    HDF5Adapter._item_by_index Sample.root 3 1 = Ok key
    /\ HDF5Adapter._keys_slice Sample.root (Some 3%Z) (Some (3 + 1)%Z) 1 = Ok [key].
Proof.
  apply (item_by_index_agrees_with_keys_slice Sample.root 3 1); simpl; lia.
Defined.

(** ** The items slice *)

Lemma mapM_cons_run {A B} (f : A -> Py B) (x : A) (r : list A) (w : World) :
  mapM f (x :: r) w
  = match f x w with
    | (Ok y, w1) =>
        match mapM f r w1 with
        | (Ok ys, w2) => (Ok (y :: ys), w2)
        | (Raise e, w2) => (Raise e, w2)
        end
    | (Raise e, w1) => (Raise e, w1)
    end.
Proof.
  simpl. unfold bind, ret. destruct (f x w) as [[y|e] w1]; [|reflexivity].
  destruct (mapM f r w1) as [[ys|e] w2]; reflexivity.
Qed.

Lemma item_run (self : HDF5Adapter.t) (key : string) (w : World) :
  (v <- HDF5Adapter.__getitem__ self key ;; ret (key, v)) w
  = match HDF5Adapter.__getitem__ self key w with
    | (Ok c, w1) => (Ok (key, c), w1)
    | (Raise e, w1) => (Raise e, w1)
    end.
Proof. reflexivity. Qed.

Lemma mapM_items (self : HDF5Adapter.t) (keys : list string) (w w' : World)
    (items : list (string * HDF5Adapter.child)) :
  mapM (fun key => v <- HDF5Adapter.__getitem__ self key ;; ret (key, v)) keys w
  = (Ok items, w') ->
  map fst items = keys
  /\ (forall key child, In (key, child) items ->
        exists wa wb, HDF5Adapter.__getitem__ self key wa = (Ok child, wb)).
Proof.
  revert w w' items. induction keys as [|k keys IH]; intros w w' items H.
  - inversion H. split; [reflexivity | intros key child []].
  - rewrite mapM_cons_run, item_run in H.
    destruct (HDF5Adapter.__getitem__ self k w) as [[c|e] w1] eqn:Ek; [|discriminate].
    destruct (mapM _ keys w1) as [[rest|e] w2] eqn:Er; [|discriminate].
    inversion H; subst. destruct (IH w1 w' rest Er) as [Hkeys Hin].
    split; [simpl; now rewrite Hkeys|].
    intros key child [E|HIn].
    + inversion E; subst. now exists w, w1.
    + exact (Hin key child HIn).
Qed.

Lemma mapM_items_blocked (self : HDF5Adapter.t) (bad : string) (keys : list string) :
  (forall w, exists e, fst (HDF5Adapter.__getitem__ self bad w) = Raise e) ->
  In bad keys ->
  forall w, exists e,
    fst (mapM (fun key => v <- HDF5Adapter.__getitem__ self key ;; ret (key, v)) keys w)
    = Raise e.
Proof.
  intros Hbad. induction keys as [|k keys IH]; intros HIn w; [destruct HIn|].
  rewrite mapM_cons_run, item_run.
  destruct (HDF5Adapter.__getitem__ self k w) as [[c|e] w1] eqn:Ek.
  - destruct HIn as [->|HIn].
    + destruct (Hbad w) as [e He]. rewrite Ek in He. discriminate.
    + destruct (IH HIn w1) as [e He].
      destruct (mapM _ keys w1) as [[rest|e'] w2]; simpl in *; [discriminate|].
      now exists e'.
  - now exists e.
Qed.

(** X20.  Forward, when the items slice returns, its keys are the keys
    slice of the same bounds, in the same order, and the child paired
    with each key is one that a lookup of that key returned. *)
Theorem items_slice_forward_pairs
    (self : HDF5Adapter.t) (start stop : option Z) (direction : Z) (w w' : World)
    (items : list (string * HDF5Adapter.child)) :
  (0 <= direction)%Z ->
  HDF5Adapter._items_slice self start stop direction w = (Ok items, w') ->
  HDF5Adapter._keys_slice self start stop direction = Ok (map fst items)
  /\ (forall key child, In (key, child) items ->
        exists wa wb, HDF5Adapter.__getitem__ self key wa = (Ok child, wb)).
Proof.
  intros Hdir H. rewrite keys_slice_forward by exact Hdir.
  unfold HDF5Adapter._items_slice, bind, lift in H.
  apply Z.ltb_ge in Hdir. rewrite Hdir in H.
  destruct (mapM _ (HDF5Adapter.__iter__ self) w) as [[all|e] w1] eqn:E; [|discriminate].
  simpl in H. inversion H; subst.
  destruct (mapM_items self _ w w' all E) as [Hkeys Hin].
  split.
  - now rewrite list_slice_map, Hkeys.
  - intros key child HIn. apply (Hin key child). eapply In_list_slice, HIn.
Qed.

Lemma items_slice_forward_pairs_witness :
  exists items w',
    HDF5Adapter._items_slice (HDF5Adapter.mk Sample.entry None None)
      (Some 0%Z) (Some 1%Z) 1 Sample.start = (Ok items, w')
    /\ HDF5Adapter._keys_slice (HDF5Adapter.mk Sample.entry None None)
         (Some 0%Z) (Some 1%Z) 1 = Ok (map fst items)
    /\ map fst items = ["data"].
Proof.
  eexists. eexists. split; [reflexivity|].
  split; [|reflexivity].
  apply (items_slice_forward_pairs (HDF5Adapter.mk Sample.entry None None)
           (Some 0%Z) (Some 1%Z) 1 Sample.start Sample.start); [lia | reflexivity].
Defined.

(** X21.  The items slice resolves every child of the node before it
    slices: when some member is an object-dtype dataset whose string
    check answers [None], the items slice returns no page: it raises,
    for every pair of bounds and every direction, also when the page
    asked for does not contain that member. *)
Theorem items_slice_blocked_by_one_leaf
    (self : HDF5Adapter.t) (key : string) (d : h5py.Dataset)
    (start stop : option Z) (direction : Z) (w : World) :
  In key (HDF5Adapter.__iter__ self) ->
  h5py.getitem (HDF5Adapter._node self) key = Ok (h5py.ObjDataset d) ->
  h5py.is_object (h5py.ds_dtype d) = true ->
  h5py.check_string_dtype (h5py.ds_dtype d) = None ->
  exists e, fst (HDF5Adapter._items_slice self start stop direction w) = Raise e.
Proof.
  intros HIn Hv Hdt Hcheck.
  destruct (mapM_items_blocked self key (HDF5Adapter.__iter__ self)
              (fun w0 => ex_intro _ AttributeError
                           (getitem_object_not_string self key d w0 Hv Hdt Hcheck))
              HIn w) as [e Hmap].
  unfold HDF5Adapter._items_slice, bind.
  destruct (mapM _ (HDF5Adapter.__iter__ self) w) as [[all|e'] w1]; simpl in *;
    [discriminate|]. now exists e'.
Qed.

Lemma items_slice_blocked_by_one_leaf_witness :
  exists e,
    fst (HDF5Adapter._items_slice Sample.root (Some 0%Z) (Some 1%Z) 1 Sample.start)
    = Raise e.
Proof.
  refine (items_slice_blocked_by_one_leaf Sample.root "links" Sample.links
            (Some 0%Z) (Some 1%Z) 1 Sample.start _ eq_refl eq_refl eq_refl).
  simpl. tauto.
Defined.

(** ** Authentication, composed *)

Lemma getitem_tree_inv (self : HDF5Adapter.t) (key : string) (w w' : World)
    (tree : HDF5Adapter.t) :
  HDF5Adapter.__getitem__ self key w = (Ok (HDF5Adapter.a_tree tree), w') ->
  exists g, h5py.getitem (HDF5Adapter._node self) key = Ok (h5py.ObjGroup g)
            /\ tree = HDF5Adapter.mk g None None /\ w' = w.
Proof.
  intros H. destruct (h5py.getitem (HDF5Adapter._node self) key) as [[g|d]|e] eqn:Hv.
  - rewrite (getitem_group self key g w Hv) in H. inversion H; subst. now exists g.
  - destruct (h5py.is_object (h5py.ds_dtype d)) eqn:Hdt.
    + rewrite (getitem_object_dataset_any_key self key d w Hv Hdt) in H. cbv zeta in H.
      destruct (h5py.check_string_dtype (h5py.ds_dtype d)) as [info|];
        [|discriminate].
      destruct (h5py.length info);
        [|destruct (res_bind (h5py.file_getitem (HDF5Adapter._node self) key)
                      h5py.read_object); [|discriminate];
          destruct (Nat.eqb (h5py.ds_size d) 1)];
        apply (f_equal fst) in H; cbn [fst] in H;
        match type of H with
        | fst (HDF5Adapter.repackaged ?x ?w1) = _ =>
            destruct (repackaged_outcome x w1) as [_ [[adapter Ha]|Ha]]
        end; rewrite Ha in H; discriminate.
    + rewrite (getitem_plain_dataset self key d w Hv Hdt) in H. discriminate.
  - unfold HDF5Adapter.__getitem__, bind, lift in H. rewrite Hv in H. discriminate.
Qed.

(** X22.  A tree can be authenticated once: on the tree that
    [authenticated_as] returns for an identity, every further
    [authenticated_as] raises [RuntimeError].  Called with no identity
    ([None]), it returns a tree equal to the receiver, which can still
    be authenticated. *)
Theorem authenticated_as_once (self : HDF5Adapter.t) :
  (forall i tree,
      HDF5Adapter.authenticated_as self (Some i) = Ok tree ->
      HDF5Adapter._node tree = HDF5Adapter._node self
      /\ HDF5Adapter.authenticated_identity tree = Some i
      /\ forall j, HDF5Adapter.authenticated_as tree j = Raise RuntimeError)
  /\ (forall tree,
        HDF5Adapter.authenticated_as self None = Ok tree ->
        tree = self
        /\ forall j, HDF5Adapter.authenticated_as tree j
                     = Ok (HDF5Adapter.mk (HDF5Adapter._node self) None j)).
Proof.
  unfold HDF5Adapter.authenticated_as, HDF5Adapter.authenticated_identity.
  destruct self as [node [p|] [who|]]; simpl; split;
    try (intros; discriminate); try (intros ? ? H; discriminate H).
  - intros i tree H. inversion H; subst. simpl. repeat split.
  - intros tree H. inversion H; subst. simpl. split; reflexivity.
Qed.

Lemma authenticated_as_once_witness :
  (forall j,
      HDF5Adapter.authenticated_as (HDF5Adapter.mk Sample.file None (Some "alice")) j
      = Raise RuntimeError)
  /\ (forall j,
        HDF5Adapter.authenticated_as Sample.root j
        = Ok (HDF5Adapter.mk Sample.file None j)).
Proof.
  split.
  - apply (proj1 (authenticated_as_once Sample.root) "alice"
             (HDF5Adapter.mk Sample.file None (Some "alice")) eq_refl).
  - apply (proj2 (authenticated_as_once Sample.root) Sample.root eq_refl).
Defined.

(** X23.  A child tree inherits neither the identity nor the policy of
    its parent: whatever the parent carries, the tree that a lookup
    returns for a sub-group has no policy and no identity, so it can be
    authenticated, and the lookup leaves the interpreter as it was. *)
Theorem child_tree_is_unauthenticated
    (self : HDF5Adapter.t) (key : string) (w w' : World) (tree : HDF5Adapter.t) :
  HDF5Adapter.__getitem__ self key w = (Ok (HDF5Adapter.a_tree tree), w') ->
  HDF5Adapter.access_policy tree = None
  /\ HDF5Adapter.authenticated_identity tree = None
  /\ h5py.getitem (HDF5Adapter._node self) key = Ok (h5py.ObjGroup (HDF5Adapter._node tree))
  /\ (forall identity,
        HDF5Adapter.authenticated_as tree identity
        = Ok (HDF5Adapter.mk (HDF5Adapter._node tree) None identity))
  /\ w' = w.
Proof.
  intros H. destruct (getitem_tree_inv self key w w' tree H) as (g & Hv & -> & ->).
  simpl. repeat split. exact Hv.
Qed.

Lemma child_tree_is_unauthenticated_witness :
  HDF5Adapter.access_policy (HDF5Adapter.mk Sample.entry None None) = None
  /\ HDF5Adapter.authenticated_identity (HDF5Adapter.mk Sample.entry None None) = None
  /\ h5py.getitem Sample.file "entry" = Ok (h5py.ObjGroup Sample.entry)
  /\ (forall identity,
        HDF5Adapter.authenticated_as (HDF5Adapter.mk Sample.entry None None) identity
        = Ok (HDF5Adapter.mk Sample.entry None identity))
  /\ Sample.start = Sample.start.
Proof.
  exact (child_tree_is_unauthenticated
           (HDF5Adapter.mk Sample.file (Some Sample.permissive) (Some "alice"))
           "entry" Sample.start Sample.start (HDF5Adapter.mk Sample.entry None None)
           eq_refl).
Defined.
